(** * condition-layout: the product handlers and the product wrapper

    A shallow embedding of [react/ConditionLayoutProduct.tsx]: the registry
    [HANDLERS] of condition predicates over the product context and the
    component [ConditionLayoutProduct] that builds the context values and
    gates the rendering of [ConditionLayout]. *)

From Stdlib Require Import List String ZArith Bool Lia Eqdep_dec.
From Stdlib Require Import DecimalFacts DecimalZ DecimalString.
Import ListNotations.

Local Open Scope Z_scope.

(** ** The JavaScript fragment the file relies on *)

Module JS.

(** Numbers that are only compared ([>], [!==]) and never printed: prices,
    quantities and lengths.  The finite integer-valued Numbers embed in [Z]
    with their order and their equality; NaN, the infinities and fractions
    are outside the model. *)
Definition number := Z.

(** Numbers that are printed by [String]: the safe integers, from
    [-(2^53 - 1)] to [2^53 - 1].  Each of them is a Number, and [String]
    prints it as its exact decimal numeral.  Larger Numbers, which [String]
    rounds to seventeen digits or prints with an exponent, are outside the
    model. *)
Definition MAX_SAFE_INTEGER : Z := 9007199254740991.

Definition isSafeInteger (z : Z) : bool :=
  (- MAX_SAFE_INTEGER <=? z) && (z <=? MAX_SAFE_INTEGER).

Record integer : Type := {
  to_Z : Z;
  safe : isSafeInteger to_Z = true
}.

(** The safe integer [z]; for a numeral the proof is [eq_refl]. *)
Definition int (z : Z) (H : isSafeInteger z = true) : integer :=
  {| to_Z := z; safe := H |}.

(** Primitive values: what an identifier, a name or a flag can hold at run
    time, whatever its declared type. *)
Inductive value : Type :=
| undefined
| null
| boolean (b : bool)
| num (n : integer)
| str (s : string).

(** An abrupt completion: the only exception this file can raise is the
    [TypeError] of reading a property of [undefined] or [null]. *)
Inductive error : Type := TypeError.

Inductive completion (A : Type) : Type :=
| Returned (a : A)
| Threw (e : error).
Arguments Returned {A} a.
Arguments Threw {A} e.

Definition bind {A B : Type} (c : completion A) (k : A -> completion B)
  : completion B :=
  match c with
  | Returned a => k a
  | Threw e => Threw e
  end.

(** A binding that tells [undefined] from [null]: a destructuring default
    [= d] only replaces [undefined]. *)
Inductive nullable (A : Type) : Type :=
| Undef
| Null
| Val (a : A).
Arguments Undef {A}.
Arguments Null {A}.
Arguments Val {A} a.

(** [v == null] *)
Definition is_nullish (v : value) : bool :=
  match v with
  | undefined | null => true
  | _ => false
  end.

(** [x === y] on primitives. *)
Definition strict_equals (x y : value) : bool :=
  match x, y with
  | undefined, undefined => true
  | null, null => true
  | boolean a, boolean b => Bool.eqb a b
  | num a, num b => Z.eqb (to_Z a) (to_Z b)
  | str a, str b => String.eqb a b
  | _, _ => false
  end.

(** [String(n)] for a safe integer: the decimal digits, after a minus sign
    when [n] is negative. *)
Definition number_to_string (n : integer) : string :=
  NilZero.string_of_int (Z.to_int (to_Z n)).

(** [String(v)] *)
Definition String (v : value) : string :=
  match v with
  | undefined => "undefined"
  | null => "null"
  | boolean true => "true"
  | boolean false => "false"
  | num n => number_to_string n
  | str s => s
  end.

(** [o?.f]: reading a primitive field through an optional chain.  An
    object that may be nullish is an [option]; [None] stands for both
    [undefined] and [null], which [?.], [??] and [== null] never tell
    apart. *)
Definition chain {A : Type} (o : option A) (f : A -> value) : value :=
  match o with
  | None => undefined
  | Some a => f a
  end.

(** [o?.m(...)] where the method returns an object or [undefined]. *)
Definition chain_opt {A B : Type} (o : option A) (m : A -> option B)
  : option B :=
  match o with
  | None => None
  | Some a => m a
  end.

(** [Boolean(x)] for [x] an object or [undefined]: objects are truthy. *)
Definition Boolean_object {A : Type} (x : option A) : bool :=
  match x with
  | None => false
  | Some _ => true
  end.

(** [Boolean(x)] for [x] a boolean or [undefined]. *)
Definition Boolean_flag (x : option bool) : bool :=
  match x with
  | None => false
  | Some b => b
  end.

(** [a > b] where each side is a number or [undefined]; [undefined]
    converts to NaN and every comparison with NaN is false. *)
Definition gt (a b : option number) : bool :=
  match a, b with
  | Some x, Some y => y <? x
  | _, _ => false
  end.

(** [x !== y] on numbers. *)
Definition number_sne (x y : number) : bool := negb (x =? y).

(** [a ?? b] on booleans that may be nullish. *)
Definition coalesce (a : option bool) (b : bool) : bool :=
  match a with
  | None => b
  | Some x => x
  end.

(** [xs.length] *)
Definition length {A : Type} (xs : list A) : number :=
  Z.of_nat (List.length xs).

(** [xs.includes(x)]: SameValueZero, which is [===] away from NaN. *)
Definition includes (x : value) (xs : list value) : bool :=
  existsb (strict_equals x) xs.

(** [o[i]]: indexing a nullish array throws, indexing past the end gives
    [undefined]. *)
Definition index {A : Type} (o : option (list A)) (i : nat)
  : completion (option A) :=
  match o with
  | None => Threw TypeError
  | Some xs => Returned (nth_error xs i)
  end.

(** [const { ... } = x]: destructuring [undefined] throws. *)
Definition destructure {A : Type} (x : option A) : completion A :=
  match x with
  | None => Threw TypeError
  | Some a => Returned a
  end.

End JS.

Notation "x <- c ;; k" := (JS.bind c (fun x => k))
  (at level 61, c at next level, right associativity).

(** ** The types of [vtex.product-context] that the file reads

    Only the fields this file touches.  A field that the file reads through
    [?.] is optional here, whatever the package declares. *)

Module ProductTypes.

(** An element of [productClusters], [clusterHighlights] or
    [categoryTree]. *)
Record Entry : Type := { id : JS.value }.

Record Property : Type := {
  name : JS.value;
  values : list JS.value
}.

Record CommertialOffer : Type := {
  ListPrice : JS.number;
  Price : JS.number;
  AvailableQuantity : JS.number
}.

Record Seller : Type := {
  sellerId : JS.value;
  sellerDefault : bool;
  commertialOffer : CommertialOffer
}.

Record Product : Type := {
  productId : JS.value;
  categoryId : JS.value;
  brandId : JS.value;
  productClusters : option (list Entry);
  clusterHighlights : option (list Entry);
  categoryTree : option (list Entry);
  properties : option (list Property)
}.

Record Item : Type := {
  itemId : JS.value;
  sellers : option (list Seller)
}.

Record SkuSelector : Type := { areAllVariationsSelected : JS.value }.

(** What [useProduct()] returns when it returns an object. *)
Record ProductContextState : Type := {
  product : option Product;
  selectedItem : option Item;
  skuSelector : JS.nullable SkuSelector
}.

End ProductTypes.

(** ** [ContextValues] and [HandlerArguments] *)

Module ContextValues.

Record t : Type := {
  productId : JS.value;
  categoryId : JS.value;
  brandId : JS.value;
  productClusters : option (list ProductTypes.Entry);
  clusterHighlights : option (list ProductTypes.Entry);
  categoryTree : option (list ProductTypes.Entry);
  selectedItemId : JS.value;
  specificationProperties : option (list ProductTypes.Property);
  areAllVariationsSelected : JS.value;
  sellers : option (list ProductTypes.Seller)
}.

End ContextValues.

Module Args.

Record Id : Type := { id : JS.value }.

Record Specification : Type := {
  name : JS.value;
  value : JS.value
}.

Record Quantity : Type := { quantity : JS.number }.

Module BestPrice.
Record t : Type := { value : option bool }.
End BestPrice.

Record Ids : Type := { ids : option (list JS.value) }.

End Args.

Module Key.

Inductive t : Type :=
| productId
| categoryId
| brandId
| productClusters
| productClusterHighlights
| categoryTree
| selectedItemId
| specificationProperties
| areAllVariationsSelected
| isProductAvailable
| hasMoreSellersThan
| hasBestPrice
| sellerId.

End Key.

(** The argument object of each handler.  Every handler reads it through
    [args?.], so it may be absent. *)
Definition HandlerArguments (k : Key.t) : Type :=
  match k with
  | Key.productId | Key.categoryId | Key.brandId
  | Key.productClusters | Key.productClusterHighlights
  | Key.categoryTree | Key.selectedItemId => option Args.Id
  | Key.specificationProperties => option Args.Specification
  | Key.areAllVariationsSelected | Key.isProductAvailable => unit
  | Key.hasMoreSellersThan => option Args.Quantity
  | Key.hasBestPrice => option Args.BestPrice.t
  | Key.sellerId => option Args.Ids
  end.

(** ** The registry *)

(** [seller.commertialOffer.AvailableQuantity > 0] *)
Definition available (seller : ProductTypes.Seller) : bool :=
  0 <? ProductTypes.AvailableQuantity (ProductTypes.commertialOffer seller).

(** [({ id }) => String(id) === String(args?.id)] *)
Definition sameId (args : option Args.Id) (e : ProductTypes.Entry) : bool :=
  String.eqb (JS.String (ProductTypes.id e)) (JS.String (JS.chain args Args.id)).

Module HANDLERS.

Import JS.

Definition productId (values : ContextValues.t) (args : option Args.Id)
  : completion value :=
  Returned (boolean (String.eqb (String (ContextValues.productId values))
                                (String (chain args Args.id)))).

Definition categoryId (values : ContextValues.t) (args : option Args.Id)
  : completion value :=
  Returned (boolean (String.eqb (String (ContextValues.categoryId values))
                                (String (chain args Args.id)))).

Definition brandId (values : ContextValues.t) (args : option Args.Id)
  : completion value :=
  Returned (boolean (String.eqb (String (ContextValues.brandId values))
                                (String (chain args Args.id)))).

Definition selectedItemId (values : ContextValues.t) (args : option Args.Id)
  : completion value :=
  Returned (boolean (String.eqb (String (ContextValues.selectedItemId values))
                                (String (chain args Args.id)))).

Definition areAllVariationsSelected (values : ContextValues.t) (_ : unit)
  : completion value :=
  Returned (ContextValues.areAllVariationsSelected values).

Definition productClusters (values : ContextValues.t) (args : option Args.Id)
  : completion value :=
  Returned (boolean (Boolean_object
    (chain_opt (ContextValues.productClusters values) (find (sameId args))))).

Definition productClusterHighlights (values : ContextValues.t)
  (args : option Args.Id) : completion value :=
  match ContextValues.clusterHighlights values with
  | None => Returned undefined
  | Some entries => Returned (boolean (existsb (sameId args) entries))
  end.

Definition categoryTree (values : ContextValues.t) (args : option Args.Id)
  : completion value :=
  Returned (boolean (Boolean_object
    (chain_opt (ContextValues.categoryTree values) (find (sameId args))))).

Definition specificationProperties (values : ContextValues.t)
  (args : option Args.Specification) : completion value :=
  let specification :=
    chain_opt (ContextValues.specificationProperties values)
      (find (fun p => strict_equals (ProductTypes.name p)
                                    (chain args Args.name))) in
  match specification with
  | None => Returned (boolean false)
  | Some spec =>
      if is_nullish (chain args Args.value)
      then Returned (boolean (Boolean_object specification))
      else Returned (boolean
             (includes (str (String (chain args Args.value)))
                       (ProductTypes.values spec)))
  end.

Definition isProductAvailable (values : ContextValues.t) (_ : unit)
  : completion value :=
  let sellers := ContextValues.sellers values in
  let isAvailable := option_map (existsb available) sellers in
  Returned (boolean (Boolean_flag isAvailable)).

Definition hasMoreSellersThan (values : ContextValues.t)
  (args : option Args.Quantity) : completion value :=
  let sellers := ContextValues.sellers values in
  let productAvailable := option_map (filter available) sellers in
  let isMoreThan :=
    gt (option_map length productAvailable)
       (option_map Args.quantity args) in
  Returned (boolean isMoreThan).

Definition hasBestPrice (values : ContextValues.t)
  (args : option Args.BestPrice.t) : completion value :=
  picked <-
    match chain_opt (ContextValues.sellers values)
                    (find ProductTypes.sellerDefault) with
    | Some seller => Returned (Some seller)
    | None => index (ContextValues.sellers values) 0
    end ;;
  seller <- destructure picked ;;
  let offer := ProductTypes.commertialOffer seller in
  let expected := coalesce (chain_opt args Args.BestPrice.value) true in
  let hasDiscount :=
    number_sne (ProductTypes.ListPrice offer) (ProductTypes.Price offer) in
  Returned (boolean (Bool.eqb hasDiscount expected)).

Definition sellerId (values : ContextValues.t) (args : option Args.Ids)
  : completion value :=
  let sellers := ContextValues.sellers values in
  let availableSellers := option_map (filter available) sellers in
  match availableSellers with
  | None => Returned undefined
  | Some avail =>
      Returned (boolean (existsb
        (fun availableSeller =>
           Boolean_flag
             (option_map (includes (ProductTypes.sellerId availableSeller))
                         (chain_opt args Args.ids)))
        avail))
  end.

End HANDLERS.

(** [HANDLERS[key]] *)
Definition handler (k : Key.t)
  : ContextValues.t -> HandlerArguments k -> JS.completion JS.value :=
  match k with
  | Key.productId => HANDLERS.productId
  | Key.categoryId => HANDLERS.categoryId
  | Key.brandId => HANDLERS.brandId
  | Key.productClusters => HANDLERS.productClusters
  | Key.productClusterHighlights => HANDLERS.productClusterHighlights
  | Key.categoryTree => HANDLERS.categoryTree
  | Key.selectedItemId => HANDLERS.selectedItemId
  | Key.specificationProperties => HANDLERS.specificationProperties
  | Key.areAllVariationsSelected => HANDLERS.areAllVariationsSelected
  | Key.isProductAvailable => HANDLERS.isProductAvailable
  | Key.hasMoreSellersThan => HANDLERS.hasMoreSellersThan
  | Key.hasBestPrice => HANDLERS.hasBestPrice
  | Key.sellerId => HANDLERS.sellerId
  end.

(** ** The component *)

(** Modelled from the spec: the [MatchType] of [./types], the match policy
    with its two members. *)
Inductive MatchType : Type := ALL | ANY.

(** Modelled from the spec: the [Condition] of [./types], a handler key with
    the arguments of that handler. *)
Record Condition : Type := {
  key : Key.t;
  args : HandlerArguments key
}.

Section Component.

(** React's component and node types stay abstract. *)
Variables ComponentType ReactNode : Type.

Record Props : Type := {
  conditions : list Condition;
  matchType : option MatchType;
  Else : option ComponentType;
  Then : option ComponentType;
  children : ReactNode
}.

(** What the component returns: [null], or the [ConditionLayout] element
    with the props it is given ([handlers] is always [HANDLERS]). *)
Inductive Element : Type :=
| RenderNull
| ConditionLayout
    (Else' Then' : option ComponentType)
    (matchType' : option MatchType)
    (conditions' : list Condition)
    (values : ContextValues.t)
    (children' : ReactNode).

(** [skuSelector: { areAllVariationsSelected = false } = {}]: the outer
    default replaces an [undefined] selector, the inner one an [undefined]
    flag; a [null] selector cannot be destructured. *)
Definition destructureSkuSelector
  (skuSelector : JS.nullable ProductTypes.SkuSelector)
  : JS.completion JS.value :=
  match skuSelector with
  | JS.Null => JS.Threw JS.TypeError
  | JS.Undef => JS.Returned (JS.boolean false)
  | JS.Val s =>
      match ProductTypes.areAllVariationsSelected s with
      | JS.undefined => JS.Returned (JS.boolean false)
      | v => JS.Returned v
      end
  end.

(** The destructurings and the [useMemo] of the component: the context
    values built from what [useProduct()] returned.  [useMemo] caches by
    the identity of its inputs and does not change the value. *)
Definition contextValues (ctx : option ProductTypes.ProductContextState)
  : JS.completion ContextValues.t :=
  let product := JS.chain_opt ctx ProductTypes.product in
  let selectedItem := JS.chain_opt ctx ProductTypes.selectedItem in
  let skuSelector :=
    match ctx with
    | None => JS.Undef
    | Some c => ProductTypes.skuSelector c
    end in
  areAllVariationsSelected <- destructureSkuSelector skuSelector ;;
  JS.Returned {|
    ContextValues.productId := JS.chain product ProductTypes.productId;
    ContextValues.categoryId := JS.chain product ProductTypes.categoryId;
    ContextValues.brandId := JS.chain product ProductTypes.brandId;
    ContextValues.productClusters :=
      JS.chain_opt product ProductTypes.productClusters;
    ContextValues.clusterHighlights :=
      JS.chain_opt product ProductTypes.clusterHighlights;
    ContextValues.categoryTree :=
      JS.chain_opt product ProductTypes.categoryTree;
    ContextValues.selectedItemId :=
      JS.chain selectedItem ProductTypes.itemId;
    ContextValues.specificationProperties :=
      JS.chain_opt product ProductTypes.properties;
    ContextValues.areAllVariationsSelected := areAllVariationsSelected;
    ContextValues.sellers :=
      JS.chain_opt selectedItem ProductTypes.sellers
  |}.

(** [values.selectedItemId == null || values.productId == null] *)
Definition notReady (values : ContextValues.t) : bool :=
  JS.is_nullish (ContextValues.selectedItemId values)
  || JS.is_nullish (ContextValues.productId values).

Definition ConditionLayoutProduct (props : Props)
  (ctx : option ProductTypes.ProductContextState)
  : JS.completion Element :=
  values <- contextValues ctx ;;
  if notReady values
  then JS.Returned RenderNull
  else JS.Returned
         (ConditionLayout (Else props) (Then props) (matchType props)
                          (conditions props) values (children props)).

End Component.

Arguments conditions {ComponentType ReactNode} p.
Arguments matchType {ComponentType ReactNode} p.
Arguments Else {ComponentType ReactNode} p.
Arguments Then {ComponentType ReactNode} p.
Arguments children {ComponentType ReactNode} p.
Arguments RenderNull {ComponentType ReactNode}.
Arguments ConditionLayout {ComponentType ReactNode}.
Arguments ConditionLayoutProduct {ComponentType ReactNode}.

(** ** The vocabulary of the statements and sample inputs

    The predicates in which the properties of the handlers are stated, and
    the concrete contexts, values and arguments on which they are
    instantiated. *)

Local Open Scope string_scope.
Local Open Scope list_scope.

Definition noProps : Props unit unit :=
  {| conditions := []; matchType := None; Else := None; Then := None;
     children := tt |}.

Definition undefinedValues : ContextValues.t :=
  {| ContextValues.productId := JS.undefined;
     ContextValues.categoryId := JS.undefined;
     ContextValues.brandId := JS.undefined;
     ContextValues.productClusters := None;
     ContextValues.clusterHighlights := None;
     ContextValues.categoryTree := None;
     ContextValues.selectedItemId := JS.undefined;
     ContextValues.specificationProperties := None;
     ContextValues.areAllVariationsSelected := JS.boolean false;
     ContextValues.sellers := None |}.

(** A product page whose product and selected item carry their identifiers
    and nothing else. *)
Definition bareProduct : ProductTypes.Product :=
  {| ProductTypes.productId := JS.str "1";
     ProductTypes.categoryId := JS.undefined;
     ProductTypes.brandId := JS.undefined;
     ProductTypes.productClusters := None;
     ProductTypes.clusterHighlights := None;
     ProductTypes.categoryTree := None;
     ProductTypes.properties := None |}.

Definition bareItem : ProductTypes.Item :=
  {| ProductTypes.itemId := JS.str "2"; ProductTypes.sellers := None |}.

Definition bareContext : option ProductTypes.ProductContextState :=
  Some {| ProductTypes.product := Some bareProduct;
          ProductTypes.selectedItem := Some bareItem;
          ProductTypes.skuSelector := JS.Undef |}.

Definition bareValues : ContextValues.t :=
  {| ContextValues.productId := JS.str "1";
     ContextValues.categoryId := JS.undefined;
     ContextValues.brandId := JS.undefined;
     ContextValues.productClusters := None;
     ContextValues.clusterHighlights := None;
     ContextValues.categoryTree := None;
     ContextValues.selectedItemId := JS.str "2";
     ContextValues.specificationProperties := None;
     ContextValues.areAllVariationsSelected := JS.boolean false;
     ContextValues.sellers := None |}.

(** The same values with a seller list. *)
Definition withSellers (sellers : list ProductTypes.Seller)
  : ContextValues.t :=
  {| ContextValues.productId := JS.str "1";
     ContextValues.categoryId := JS.str "10";
     ContextValues.brandId := JS.str "20";
     ContextValues.productClusters := Some [];
     ContextValues.clusterHighlights := Some [];
     ContextValues.categoryTree := Some [];
     ContextValues.selectedItemId := JS.str "2";
     ContextValues.specificationProperties := Some [];
     ContextValues.areAllVariationsSelected := JS.boolean false;
     ContextValues.sellers := Some sellers |}.

(** What the spec calls normalized: no field of the values is [null] or
    [undefined]. *)
Definition fullyDefined (values : ContextValues.t) : Prop :=
  JS.is_nullish (ContextValues.productId values) = false
  /\ JS.is_nullish (ContextValues.categoryId values) = false
  /\ JS.is_nullish (ContextValues.brandId values) = false
  /\ ContextValues.productClusters values <> None
  /\ ContextValues.clusterHighlights values <> None
  /\ ContextValues.categoryTree values <> None
  /\ JS.is_nullish (ContextValues.selectedItemId values) = false
  /\ ContextValues.specificationProperties values <> None
  /\ JS.is_nullish (ContextValues.areAllVariationsSelected values) = false
  /\ ContextValues.sellers values <> None.

(** Values whose [productId] is the number 123. *)
Definition numericProduct : ContextValues.t :=
  {| ContextValues.productId := JS.num (JS.int 123 eq_refl);
     ContextValues.categoryId := JS.num (JS.int 10 eq_refl);
     ContextValues.brandId := JS.num (JS.int 20 eq_refl);
     ContextValues.productClusters := Some [];
     ContextValues.clusterHighlights := Some [];
     ContextValues.categoryTree := Some [];
     ContextValues.selectedItemId := JS.num (JS.int 2 eq_refl);
     ContextValues.specificationProperties := Some [];
     ContextValues.areAllVariationsSelected := JS.boolean false;
     ContextValues.sellers := Some [] |}.

(** A handler [h] decides the identifier [field]: it returns a boolean, and
    that boolean is [true] exactly when the fact and the argument have the
    same string form. *)
Definition comparesStrings
  (h : ContextValues.t -> option Args.Id -> JS.completion JS.value)
  (field : ContextValues.t -> JS.value) : Prop :=
  forall (values : ContextValues.t) (id : JS.value),
  exists b : bool,
    h values (Some {| Args.id := id |}) = JS.Returned (JS.boolean b)
    /\ (b = true <-> JS.String (field values) = JS.String id).

(** A handler [h] accepts the fact itself as its argument. *)
Definition reflexiveOn
  (h : ContextValues.t -> option Args.Id -> JS.completion JS.value)
  (field : ContextValues.t -> JS.value) : Prop :=
  forall values : ContextValues.t,
    h values (Some {| Args.id := field values |})
    = JS.Returned (JS.boolean true).

Definition seller (sellerId : string) (sellerDefault : bool)
  (ListPrice Price AvailableQuantity : Z) : ProductTypes.Seller :=
  {| ProductTypes.sellerId := JS.str sellerId;
     ProductTypes.sellerDefault := sellerDefault;
     ProductTypes.commertialOffer :=
       {| ProductTypes.ListPrice := ListPrice;
          ProductTypes.Price := Price;
          ProductTypes.AvailableQuantity := AvailableQuantity |} |}.

(** A first seller without discount, then the default seller with one. *)
Definition discountedDefault : list ProductTypes.Seller :=
  [seller "s1" false 50 50 1; seller "s2" true 100 80 1].

(** The default seller sells at list price. *)
Definition undiscountedDefault : list ProductTypes.Seller :=
  [seller "s1" false 50 40 1; seller "s2" true 100 100 1].

(** No default seller; the first seller has a discount. *)
Definition noDefault : list ProductTypes.Seller :=
  [seller "s1" false 100 80 1; seller "s2" false 100 100 1].

(** The seller [hasBestPrice] is to look at: the first seller marked
    default, or the first seller when none is marked. *)
Definition picksSeller (sellers : list ProductTypes.Seller)
  (s : ProductTypes.Seller) : Prop :=
  (exists before after,
      sellers = before ++ s :: after
      /\ ProductTypes.sellerDefault s = true
      /\ forall x, In x before -> ProductTypes.sellerDefault x = false)
  \/ ((forall x, In x sellers -> ProductTypes.sellerDefault x = false)
      /\ hd_error sellers = Some s).

(** The expectation [hasBestPrice] is called with: [args.value], or [true]
    when it is omitted. *)
Definition expectation (args : option Args.BestPrice.t) : bool :=
  match args with
  | Some {| Args.BestPrice.value := Some v |} => v
  | _ => true
  end.

(** Three sellers in stock and one out of stock. *)
Definition threeAvailable : list ProductTypes.Seller :=
  [seller "s1" true 100 80 4; seller "s2" false 100 90 0;
   seller "s3" false 100 95 1; seller "s4" false 100 100 7].

(** Two sellers share the id "s1"; only the second is in stock. *)
Definition oneOfTwoAvailable : list ProductTypes.Seller :=
  [seller "s1" true 100 80 0; seller "s1" false 100 90 3].

(** The only seller with id "s1" is out of stock. *)
Definition noneAvailable : list ProductTypes.Seller :=
  [seller "s1" true 100 80 0; seller "s2" false 100 90 3].

(** [{ quantity }] *)
Definition quantityArgs (quantity : Z) : option Args.Quantity :=
  Some {| Args.quantity := quantity |}.

(** [{ ids }] *)
Definition idsArgs (ids : list JS.value) : option Args.Ids :=
  Some {| Args.ids := Some ids |}.

(** The sellers of the values that are in stock and whose id is among
    [ids]. *)
Definition availableSellerAmong (values : ContextValues.t)
  (ids : list JS.value) (s : ProductTypes.Seller) : Prop :=
  exists sellers,
    ContextValues.sellers values = Some sellers
    /\ In s sellers
    /\ 0 < ProductTypes.AvailableQuantity (ProductTypes.commertialOffer s)
    /\ In (ProductTypes.sellerId s) ids.

Definition property (name : JS.value) (values : list JS.value)
  : ProductTypes.Property :=
  {| ProductTypes.name := name; ProductTypes.values := values |}.

Definition withProperties (properties : list ProductTypes.Property)
  : ContextValues.t :=
  {| ContextValues.productId := JS.str "1";
     ContextValues.categoryId := JS.str "10";
     ContextValues.brandId := JS.str "20";
     ContextValues.productClusters := Some [];
     ContextValues.clusterHighlights := Some [];
     ContextValues.categoryTree := Some [];
     ContextValues.selectedItemId := JS.str "2";
     ContextValues.specificationProperties := Some properties;
     ContextValues.areAllVariationsSelected := JS.boolean false;
     ContextValues.sellers := Some [] |}.

Definition sizeAndColor : list ProductTypes.Property :=
  [property (JS.str "size") [JS.str "M"];
   property (JS.str "color") [JS.str "red"; JS.str "blue"]].

(** A property named by the number 123, and a property whose values are
    the string "5" and the number 7. *)
Definition numericNames : list ProductTypes.Property :=
  [property (JS.num (JS.int 123 eq_refl)) [JS.str "x"];
   property (JS.str "width") [JS.str "5"; JS.num (JS.int 7 eq_refl)]].

(** [{ name, value }] as the type of the arguments has it: [value] is a
    string or is omitted. *)
Definition specificationArgs (name : JS.value) (value : option string)
  : option Args.Specification :=
  Some {| Args.name := name;
          Args.value := match value with
                        | None => JS.undefined
                        | Some s => JS.str s
                        end |}.

(** [found] is the property named [name]: the first one of the list with
    that name, or none when the list is absent or has no such property. *)
Definition propertyNamed (name : JS.value)
  (properties : option (list ProductTypes.Property))
  (found : option ProductTypes.Property) : Prop :=
  match found with
  | None =>
      forall ps p,
        properties = Some ps -> In p ps -> ProductTypes.name p <> name
  | Some p =>
      exists before after,
        properties = Some (before ++ p :: after)
        /\ ProductTypes.name p = name
        /\ forall q, In q before -> ProductTypes.name q <> name
  end.

(** What the spec asks of [specificationProperties]: the property exists
    and, when a value is given, the value is among its values. *)
Definition specificationHolds (found : option ProductTypes.Property)
  (value : option string) : Prop :=
  match found, value with
  | None, _ => False
  | Some _, None => True
  | Some p, Some s => In (JS.str s) (ProductTypes.values p)
  end.

(** The handlers that return a boolean on every input. *)
Definition alwaysBoolean (k : Key.t) : bool :=
  match k with
  | Key.productClusterHighlights | Key.areAllVariationsSelected
  | Key.hasBestPrice | Key.sellerId => false
  | _ => true
  end.

(** [{ id }] *)
Definition idArgs (id : JS.value) : option Args.Id :=
  Some {| Args.id := id |}.

(** The collection [entries] is there and one of its entries has an id with
    the string form of [id]. *)
Definition hasEntry (entries : option (list ProductTypes.Entry))
  (id : JS.value) : Prop :=
  exists es e,
    entries = Some es
    /\ In e es
    /\ JS.String (ProductTypes.id e) = JS.String id.

(** [s] is a seller of the values with [AvailableQuantity > 0]. *)
Definition inStock (values : ContextValues.t) (s : ProductTypes.Seller)
  : Prop :=
  exists sellers,
    ContextValues.sellers values = Some sellers
    /\ In s sellers
    /\ 0 < ProductTypes.AvailableQuantity (ProductTypes.commertialOffer s).

Definition entry (id : JS.value) : ProductTypes.Entry :=
  {| ProductTypes.id := id |}.

(** Values whose three collections of entries are all [entries]. *)
Definition withEntries (entries : list ProductTypes.Entry)
  : ContextValues.t :=
  {| ContextValues.productId := JS.str "1";
     ContextValues.categoryId := JS.str "10";
     ContextValues.brandId := JS.str "20";
     ContextValues.productClusters := Some entries;
     ContextValues.clusterHighlights := Some entries;
     ContextValues.categoryTree := Some entries;
     ContextValues.selectedItemId := JS.str "2";
     ContextValues.specificationProperties := Some [];
     ContextValues.areAllVariationsSelected := JS.boolean false;
     ContextValues.sellers := Some [] |}.

(** [{ value }] *)
Definition valueArgs (value : bool) : option Args.BestPrice.t :=
  Some {| Args.BestPrice.value := Some value |}.

(** Two sellers with the same default mark and the same prices; their ids
    and their stock may differ. *)
Definition sameOffer (s t : ProductTypes.Seller) : Prop :=
  ProductTypes.sellerDefault s = ProductTypes.sellerDefault t
  /\ ProductTypes.ListPrice (ProductTypes.commertialOffer s)
     = ProductTypes.ListPrice (ProductTypes.commertialOffer t)
  /\ ProductTypes.Price (ProductTypes.commertialOffer s)
     = ProductTypes.Price (ProductTypes.commertialOffer t).

(** The sellers of [discountedDefault], all out of stock and renamed. *)
Definition discountedDefaultSoldOut : list ProductTypes.Seller :=
  [seller "a" false 50 50 0; seller "b" true 100 80 0].

(** Two properties named "color"; only the second lists "red". *)
Definition twoColors : list ProductTypes.Property :=
  [property (JS.str "color") [JS.str "blue"];
   property (JS.str "color") [JS.str "red"]].

(** The context lacks the product id or the id of the selected item:
    [useProduct()] returned nothing, or there is no product, no selected
    item, or one of the two ids is [null] or [undefined]. *)
Definition missingIdentity (ctx : option ProductTypes.ProductContextState)
  : Prop :=
  match ctx with
  | None => True
  | Some state =>
      match ProductTypes.product state, ProductTypes.selectedItem state with
      | Some product, Some item =>
          JS.is_nullish (ProductTypes.productId product) = true
          \/ JS.is_nullish (ProductTypes.itemId item) = true
      | _, _ => True
      end
  end.

(** The sku selector of the context is [null]. *)
Definition nullSkuSelector (ctx : option ProductTypes.ProductContextState)
  : Prop :=
  exists state, ctx = Some state /\ ProductTypes.skuSelector state = JS.Null.

(** The values on which the handler of key [k] returns a boolean. *)
Definition answersBoolean (k : Key.t) (values : ContextValues.t) : Prop :=
  match k with
  | Key.productClusterHighlights =>
      ContextValues.clusterHighlights values <> None
  | Key.areAllVariationsSelected =>
      exists b, ContextValues.areAllVariationsSelected values = JS.boolean b
  | Key.hasBestPrice =>
      exists s rest, ContextValues.sellers values = Some (s :: rest)
  | Key.sellerId => ContextValues.sellers values <> None
  | _ => True
  end.

(** A context with everything in place, and the same context with a [null]
    sku selector. *)
Definition fullProduct : ProductTypes.Product :=
  {| ProductTypes.productId := JS.num (JS.int 123 eq_refl);
     ProductTypes.categoryId := JS.str "10";
     ProductTypes.brandId := JS.str "20";
     ProductTypes.productClusters := Some [entry (JS.str "A")];
     ProductTypes.clusterHighlights := Some [];
     ProductTypes.categoryTree := Some [entry (JS.num (JS.int 10 eq_refl))];
     ProductTypes.properties := Some sizeAndColor |}.

Definition fullItem : ProductTypes.Item :=
  {| ProductTypes.itemId := JS.str "2";
     ProductTypes.sellers := Some threeAvailable |}.

Definition fullState : ProductTypes.ProductContextState :=
  {| ProductTypes.product := Some fullProduct;
     ProductTypes.selectedItem := Some fullItem;
     ProductTypes.skuSelector :=
       JS.Val {| ProductTypes.areAllVariationsSelected := JS.boolean true |}
  |}.

Definition nullSelectorState : ProductTypes.ProductContextState :=
  {| ProductTypes.product := Some fullProduct;
     ProductTypes.selectedItem := Some fullItem;
     ProductTypes.skuSelector := JS.Null |}.

(** [s] is the decimal numeral of [z]: it reads as a decimal integer (an
    optional minus sign, then digits and nothing else) that is in normal
    form (no leading zero, no minus sign before zero) and whose value is
    [z]. *)
Definition numeralOf (z : Z) (s : string) : Prop :=
  exists d : Decimal.int,
    NilZero.int_of_string s = Some d
    /\ Decimal.norm d = d
    /\ Z.of_int d = z.

(** On a fact that is a number, the handler [h] is matched by the decimal
    numeral of that number given as a string, and by no other string. *)
Definition matchesNumeral
  (h : ContextValues.t -> option Args.Id -> JS.completion JS.value)
  (field : ContextValues.t -> JS.value) : Prop :=
  forall (values : ContextValues.t) (n : JS.integer) (s : string),
    field values = JS.num n ->
    (h values (Some {| Args.id := JS.str s |}) = JS.Returned (JS.boolean true)
     <-> numeralOf (JS.to_Z n) s).

(** Values whose [productId] is the largest safe integer. *)
Definition largestProductId : ContextValues.t :=
  {| ContextValues.productId := JS.num (JS.int 9007199254740991 eq_refl);
     ContextValues.categoryId := JS.num (JS.int 0 eq_refl);
     ContextValues.brandId := JS.num (JS.int (-5) eq_refl);
     ContextValues.productClusters := Some [];
     ContextValues.clusterHighlights := Some [];
     ContextValues.categoryTree := Some [];
     ContextValues.selectedItemId := JS.num (JS.int 1000 eq_refl);
     ContextValues.specificationProperties := Some [];
     ContextValues.areAllVariationsSelected := JS.boolean false;
     ContextValues.sellers := Some [] |}.

(** The bare context with a sku selector that has no flag. *)
Definition flaglessContext : option ProductTypes.ProductContextState :=
  Some {| ProductTypes.product := Some bareProduct;
          ProductTypes.selectedItem := Some bareItem;
          ProductTypes.skuSelector :=
            JS.Val {| ProductTypes.areAllVariationsSelected := JS.undefined |}
       |}.

(** The number of sellers of the values with [AvailableQuantity > 0]; values
    without a seller list have no seller. *)
Definition availableCount (values : ContextValues.t) : Z :=
  match ContextValues.sellers values with
  | Some sellers => Z.of_nat (List.length (filter available sellers))
  | None => 0
  end.

(** ** Facts about the JavaScript fragment *)

(** A safe integer is its value: the proof that it is safe carries no
    information. *)
Lemma integer_eq (a b : JS.integer) : JS.to_Z a = JS.to_Z b -> a = b.
Proof.
  destruct a as [x Hx], b as [y Hy]. simpl. intros <-.
  f_equal. apply UIP_dec. apply Bool.bool_dec.
Qed.

Lemma strict_equals_eq (x y : JS.value) :
  JS.strict_equals x y = true <-> x = y.
Proof.
  destruct x, y; simpl; split; intro H;
    try discriminate; try reflexivity.
  - apply Bool.eqb_prop in H. now subst.
  - injection H as ->. apply Bool.eqb_reflx.
  - apply Z.eqb_eq in H. f_equal. now apply integer_eq.
  - injection H as ->. apply Z.eqb_refl.
  - apply String.eqb_eq in H. now subst.
  - injection H as ->. apply String.eqb_refl.
Qed.

Lemma strict_equals_neq (x y : JS.value) :
  JS.strict_equals x y = false <-> x <> y.
Proof.
  rewrite <- strict_equals_eq.
  destruct (JS.strict_equals x y); split; congruence.
Qed.

Lemma includes_In (x : JS.value) (xs : list JS.value) :
  JS.includes x xs = true <-> In x xs.
Proof.
  unfold JS.includes. rewrite existsb_exists. split.
  - intros [y [Hin Heq]]. apply strict_equals_eq in Heq. now subst.
  - intro Hin. exists x. split; [assumption | now apply strict_equals_eq].
Qed.

(** [find] returns the first element that satisfies the test. *)
Lemma find_first {A : Type} (f : A -> bool) (before after : list A) (x : A) :
  (forall y, In y before -> f y = false) ->
  f x = true ->
  find f (before ++ x :: after) = Some x.
Proof.
  intros Hbefore Hx.
  induction before as [| y before IH]; simpl.
  - now rewrite Hx.
  - rewrite (Hbefore y (or_introl eq_refl)).
    apply IH. intros z Hz. apply Hbefore. now right.
Qed.

Lemma find_absent {A : Type} (f : A -> bool) (xs : list A) :
  (forall y, In y xs -> f y = false) -> find f xs = None.
Proof.
  intro Hall.
  induction xs as [| y xs IH]; simpl; [reflexivity |].
  rewrite (Hall y (or_introl eq_refl)).
  apply IH. intros z Hz. apply Hall. now right.
Qed.

Lemma find_splits {A : Type} (f : A -> bool) (xs : list A) (x : A) :
  find f xs = Some x ->
  exists before after,
    xs = before ++ x :: after
    /\ f x = true
    /\ forall y, In y before -> f y = false.
Proof.
  induction xs as [| y xs IH]; simpl; [discriminate |].
  destruct (f y) eqn:Hy.
  - intros [= ->]. exists [], xs. repeat split; [assumption |].
    intros z [].
  - intro Hfind. destruct (IH Hfind) as (before & after & -> & Hx & Hb).
    exists (y :: before), after. repeat split; [assumption |].
    intros z [<- | Hz]; [assumption | now apply Hb].
Qed.

Lemma available_spec (seller : ProductTypes.Seller) :
  available seller = true <->
  0 < ProductTypes.AvailableQuantity (ProductTypes.commertialOffer seller).
Proof. unfold available. apply Z.ltb_lt. Qed.

(** ** The readiness gate *)

(** C1.  When the context values lack [productId] or [selectedItemId]
    (either is [null] or [undefined]), the component returns [null]; in
    particular it does not return a [ConditionLayout] element, so the
    conditions are never evaluated on those values. *)
Theorem notReady_renders_null
  (ComponentType ReactNode : Type) (props : Props ComponentType ReactNode)
  (ctx : option ProductTypes.ProductContextState) (values : ContextValues.t) :
  contextValues ctx = JS.Returned values ->
  JS.is_nullish (ContextValues.productId values) = true
  \/ JS.is_nullish (ContextValues.selectedItemId values) = true ->
  ConditionLayoutProduct props ctx = JS.Returned RenderNull
  /\ forall E T m c v ch,
       ConditionLayoutProduct props ctx
       <> JS.Returned (ConditionLayout E T m c v ch).
Proof.
  intros Hvalues Hmissing.
  assert (Hgate : notReady values = true).
  { unfold notReady. apply Bool.orb_true_iff. tauto. }
  assert (Hnull : ConditionLayoutProduct props ctx = JS.Returned RenderNull).
  { unfold ConditionLayoutProduct. rewrite Hvalues. simpl. now rewrite Hgate. }
  split; [exact Hnull |].
  intros E T m c v ch Habs. rewrite Hnull in Habs. discriminate.
Qed.

(** [useProduct()] returned nothing: the values are all [undefined] and the
    component renders [null]. *)
Lemma notReady_renders_null_witness :
  contextValues None = JS.Returned undefinedValues
  /\ ConditionLayoutProduct noProps None = JS.Returned RenderNull.
Proof.
  split; [reflexivity |].
  apply (notReady_renders_null unit unit noProps None undefinedValues).
  - reflexivity.
  - left. reflexivity.
Defined.

(** ** What the values hold once the gate is passed *)

(** The values that reach [ConditionLayout] are exactly those that pass the
    gate. *)
Lemma ConditionLayoutProduct_ready
  (ComponentType ReactNode : Type) (props : Props ComponentType ReactNode)
  (ctx : option ProductTypes.ProductContextState) (values : ContextValues.t) :
  contextValues ctx = JS.Returned values ->
  notReady values = false ->
  ConditionLayoutProduct props ctx =
  JS.Returned (ConditionLayout (Else props) (Then props) (matchType props)
                               (conditions props) values (children props)).
Proof.
  intros Hvalues Hgate.
  unfold ConditionLayoutProduct. rewrite Hvalues. simpl. now rewrite Hgate.
Qed.

Lemma destructureSkuSelector_defined
  (skuSelector : JS.nullable ProductTypes.SkuSelector) (flag : JS.value) :
  destructureSkuSelector skuSelector = JS.Returned flag ->
  flag <> JS.undefined.
Proof.
  destruct skuSelector as [| | [f]]; simpl; try discriminate.
  - intros [= <-]. discriminate.
  - destruct f; intros [= <-]; discriminate.
Qed.

(** C9, as the spec states it, fails: the bare context passes the gate and
    is rendered through [ConditionLayout], with values whose collections are
    still [undefined]. *)
Lemma gate_leaves_fields_undefined :
  ~ (forall ctx values,
        contextValues ctx = JS.Returned values ->
        notReady values = false ->
        fullyDefined values).
Proof.
  intro Hclaim.
  assert (Hdef : fullyDefined bareValues).
  { apply (Hclaim bareContext); reflexivity. }
  destruct Hdef as (_ & Hcategory & _).
  discriminate Hcategory.
Qed.

(** C9, amended.  Once the gate is passed, [productId] and [selectedItemId]
    are neither [null] nor [undefined]; [areAllVariationsSelected] is never
    [undefined]: it is [false] when the sku selector is absent upstream and
    when its flag is, and the upstream flag otherwise; every other field is
    the field of the upstream product or selected item, unchanged, so that a
    field absent upstream stays absent. *)
Theorem gate_passes_fields_through
  (ctx : option ProductTypes.ProductContextState) (values : ContextValues.t) :
  contextValues ctx = JS.Returned values ->
  notReady values = false ->
  exists state product item,
    ctx = Some state
    /\ ProductTypes.product state = Some product
    /\ ProductTypes.selectedItem state = Some item
    /\ JS.is_nullish (ContextValues.productId values) = false
    /\ JS.is_nullish (ContextValues.selectedItemId values) = false
    /\ ContextValues.areAllVariationsSelected values <> JS.undefined
    /\ (ProductTypes.skuSelector state = JS.Undef ->
        ContextValues.areAllVariationsSelected values = JS.boolean false)
    /\ (forall selector,
           ProductTypes.skuSelector state = JS.Val selector ->
           ProductTypes.areAllVariationsSelected selector = JS.undefined ->
           ContextValues.areAllVariationsSelected values = JS.boolean false)
    /\ (forall selector,
           ProductTypes.skuSelector state = JS.Val selector ->
           ProductTypes.areAllVariationsSelected selector <> JS.undefined ->
           ContextValues.areAllVariationsSelected values
           = ProductTypes.areAllVariationsSelected selector)
    /\ ContextValues.productId values = ProductTypes.productId product
    /\ ContextValues.categoryId values = ProductTypes.categoryId product
    /\ ContextValues.brandId values = ProductTypes.brandId product
    /\ ContextValues.productClusters values
       = ProductTypes.productClusters product
    /\ ContextValues.clusterHighlights values
       = ProductTypes.clusterHighlights product
    /\ ContextValues.categoryTree values = ProductTypes.categoryTree product
    /\ ContextValues.selectedItemId values = ProductTypes.itemId item
    /\ ContextValues.specificationProperties values
       = ProductTypes.properties product
    /\ ContextValues.sellers values = ProductTypes.sellers item.
Proof.
  unfold contextValues, notReady.
  intros Hvalues Hgate.
  destruct (destructureSkuSelector _) as [flag |] eqn:Hflag;
    simpl in Hvalues; [| discriminate].
  injection Hvalues as <-. simpl in Hgate |- *.
  apply Bool.orb_false_iff in Hgate as [Hitem Hproduct].
  destruct ctx as [state |]; [| discriminate].
  simpl in *.
  destruct (ProductTypes.product state) as [product |] eqn:Hp;
    [| discriminate].
  destruct (ProductTypes.selectedItem state) as [item |] eqn:Hi;
    [| discriminate].
  simpl in *.
  exists state, product, item.
  repeat split; try assumption; try reflexivity.
  - now apply destructureSkuSelector_defined with (1 := Hflag).
  - intro Hsku. rewrite Hsku in Hflag. simpl in Hflag. congruence.
  - intros selector Hsku Habsent. rewrite Hsku in Hflag. simpl in Hflag.
    rewrite Habsent in Hflag. congruence.
  - intros selector Hsku Hpresent. rewrite Hsku in Hflag. simpl in Hflag.
    destruct (ProductTypes.areAllVariationsSelected selector); congruence.
Qed.

(** On the bare context with a sku selector that has no flag, the fields of
    the product are handed over as they are and the flag is [false]. *)
Lemma gate_passes_fields_through_witness :
  contextValues flaglessContext = JS.Returned bareValues
  /\ notReady bareValues = false
  /\ ContextValues.areAllVariationsSelected bareValues = JS.boolean false
  /\ ContextValues.clusterHighlights bareValues = None
  /\ ContextValues.sellers bareValues = None.
Proof.
  split; [reflexivity |]. split; [reflexivity |].
  destruct (gate_passes_fields_through flaglessContext bareValues
              eq_refl eq_refl)
    as (state & product & item & Hstate & Hproduct & Hitem & _ & _ & _ & _
        & Habsent & _ & _ & _ & _ & _ & Hhighlights & _ & _ & _ & Hsellers).
  injection Hstate as <-. injection Hproduct as <-. injection Hitem as <-.
  split; [| split].
  - now apply (Habsent {| ProductTypes.areAllVariationsSelected :=
                            JS.undefined |}).
  - exact Hhighlights.
  - exact Hsellers.
Defined.

(** ** The identifier handlers *)

Lemma eqb_decides (s t : string) :
  exists b : bool, String.eqb s t = b /\ (b = true <-> s = t).
Proof.
  exists (String.eqb s t). split; [reflexivity | apply String.eqb_eq].
Qed.

(** [String] prints a safe integer as its decimal numeral, and as nothing
    else. *)
Lemma String_num_numeral (n : JS.integer) (s : string) :
  JS.String (JS.num n) = s <-> numeralOf (JS.to_Z n) s.
Proof.
  simpl. unfold JS.number_to_string, numeralOf.
  assert (Hnorm : Decimal.norm (Z.to_int (JS.to_Z n)) = Z.to_int (JS.to_Z n)).
  { rewrite <- DecimalZ.to_of. now rewrite DecimalZ.of_to. }
  split.
  - intros <-. exists (Z.to_int (JS.to_Z n)).
    split; [| split; [exact Hnorm | apply DecimalZ.of_to]].
    apply NilZero.isi; intro Habs; rewrite Habs in Hnorm; discriminate.
  - intros (d & Hparse & Hd & Hvalue).
    apply NilZero.sis in Hparse. rewrite <- Hparse. f_equal.
    rewrite <- Hvalue, DecimalZ.to_of. exact Hd.
Qed.

(** C5.  [productId], [categoryId], [brandId] and [selectedItemId] return
    [true] exactly when [String] of the fact equals [String] of the
    argument; each accepts the fact itself, and the number 123 is matched by
    the string "123".  A fact that is a number is matched by its decimal
    numeral given as a string, and by no other string. *)
Theorem identifier_handlers_compare_strings :
  (comparesStrings HANDLERS.productId ContextValues.productId
   /\ comparesStrings HANDLERS.categoryId ContextValues.categoryId
   /\ comparesStrings HANDLERS.brandId ContextValues.brandId
   /\ comparesStrings HANDLERS.selectedItemId ContextValues.selectedItemId)
  /\ (reflexiveOn HANDLERS.productId ContextValues.productId
      /\ reflexiveOn HANDLERS.categoryId ContextValues.categoryId
      /\ reflexiveOn HANDLERS.brandId ContextValues.brandId
      /\ reflexiveOn HANDLERS.selectedItemId ContextValues.selectedItemId)
  /\ HANDLERS.productId numericProduct (Some {| Args.id := JS.str "123" |})
     = JS.Returned (JS.boolean true)
  /\ (matchesNumeral HANDLERS.productId ContextValues.productId
      /\ matchesNumeral HANDLERS.categoryId ContextValues.categoryId
      /\ matchesNumeral HANDLERS.brandId ContextValues.brandId
      /\ matchesNumeral HANDLERS.selectedItemId ContextValues.selectedItemId).
Proof.
  assert (Hcmp : forall field : ContextValues.t -> JS.value,
             comparesStrings
               (fun values args =>
                  JS.Returned (JS.boolean
                    (String.eqb (JS.String (field values))
                                (JS.String (JS.chain args Args.id)))))
               field).
  { intros field values id. simpl.
    destruct (eqb_decides (JS.String (field values)) (JS.String id))
      as [b [-> Hb]].
    exists b. split; [reflexivity | exact Hb]. }
  assert (Hrefl : forall field : ContextValues.t -> JS.value,
             reflexiveOn
               (fun values args =>
                  JS.Returned (JS.boolean
                    (String.eqb (JS.String (field values))
                                (JS.String (JS.chain args Args.id)))))
               field).
  { intros field values. simpl. now rewrite String.eqb_refl. }
  assert (Hnum : forall field : ContextValues.t -> JS.value,
             matchesNumeral
               (fun values args =>
                  JS.Returned (JS.boolean
                    (String.eqb (JS.String (field values))
                                (JS.String (JS.chain args Args.id)))))
               field).
  { intros field values n s Hfield. rewrite Hfield.
    rewrite <- String_num_numeral. simpl JS.chain.
    change (JS.String (JS.str s)) with s. split.
    - intros [= Heq]. now apply String.eqb_eq.
    - intro Heq. apply String.eqb_eq in Heq. now rewrite Heq. }
  split; [| split; [| split]].
  - split; [| split; [| split]]; apply Hcmp.
  - split; [| split; [| split]]; apply Hrefl.
  - reflexivity.
  - split; [| split; [| split]]; apply Hnum.
Qed.

(** The largest safe integer is matched by its sixteen digits and not by
    the digits of its successor. *)
Lemma identifier_handlers_compare_strings_witness :
  numeralOf 9007199254740991 "9007199254740991"
  /\ HANDLERS.productId largestProductId
       (Some {| Args.id := JS.str "9007199254740991" |})
     = JS.Returned (JS.boolean true)
  /\ HANDLERS.productId largestProductId
       (Some {| Args.id := JS.str "9007199254740992" |})
     <> JS.Returned (JS.boolean true).
Proof.
  destruct identifier_handlers_compare_strings
    as (_ & _ & _ & Hnum & _).
  assert (Hnumeral : numeralOf 9007199254740991 "9007199254740991").
  { eexists. split; [reflexivity |]. split; reflexivity. }
  split; [exact Hnumeral |]. split.
  - apply (Hnum largestProductId (JS.int 9007199254740991 eq_refl)
             "9007199254740991" eq_refl).
    exact Hnumeral.
  - intro Htrue.
    apply (Hnum largestProductId (JS.int 9007199254740991 eq_refl)
             "9007199254740992" eq_refl) in Htrue.
    destruct Htrue as (d & Hparse & _ & Hvalue).
    injection Hparse as <-. discriminate Hvalue.
Defined.

(** The numerals of zero, of a negative number and of a number with
    trailing zeros. *)
Lemma String_num_examples :
  JS.String (JS.num (JS.int 0 eq_refl)) = "0"
  /\ JS.String (JS.num (JS.int (-5) eq_refl)) = "-5"
  /\ JS.String (JS.num (JS.int 1000 eq_refl)) = "1000"
  /\ JS.String (JS.num (JS.int (-9007199254740991) eq_refl))
     = "-9007199254740991".
Proof. repeat split. Qed.

(** ** [hasBestPrice] *)

(** C3.  On an empty seller list [hasBestPrice] does not return: no seller
    is marked default, [values.sellers[0]] is [undefined], and destructuring
    it throws a [TypeError]. *)
Theorem hasBestPrice_empty_sellers_throws
  (values : ContextValues.t) (args : option Args.BestPrice.t) :
  ContextValues.sellers values = Some [] ->
  HANDLERS.hasBestPrice values args = JS.Threw JS.TypeError.
Proof.
  intro Hempty. unfold HANDLERS.hasBestPrice.
  rewrite Hempty. reflexivity.
Qed.

Lemma hasBestPrice_empty_sellers_throws_witness :
  ContextValues.sellers (withSellers []) = Some []
  /\ HANDLERS.hasBestPrice (withSellers []) None = JS.Threw JS.TypeError.
Proof.
  split; [reflexivity |].
  apply (hasBestPrice_empty_sellers_throws (withSellers []) None).
  reflexivity.
Defined.

(** C4.  On a non-empty seller list [hasBestPrice] looks at the seller
    marked default, or at the first seller when none is marked, and returns
    [true] exactly when "list price differs from price" agrees with the
    expectation, which is [true] when [args.value] is omitted. *)
Theorem hasBestPrice_spec
  (values : ContextValues.t) (sellers : list ProductTypes.Seller)
  (args : option Args.BestPrice.t) :
  ContextValues.sellers values = Some sellers ->
  sellers <> [] ->
  exists (s : ProductTypes.Seller) (b : bool),
    picksSeller sellers s
    /\ HANDLERS.hasBestPrice values args = JS.Returned (JS.boolean b)
    /\ (b = true <->
        (ProductTypes.ListPrice (ProductTypes.commertialOffer s)
         <> ProductTypes.Price (ProductTypes.commertialOffer s)
         <-> expectation args = true)).
Proof.
  intros Hsellers Hnonempty.
  assert (Hexp : JS.coalesce (JS.chain_opt args Args.BestPrice.value) true
                 = expectation args).
  { destruct args as [[[v |]] |]; reflexivity. }
  assert (Hres : forall s,
             exists b,
               JS.Returned (JS.boolean
                 (Bool.eqb
                    (JS.number_sne
                       (ProductTypes.ListPrice (ProductTypes.commertialOffer s))
                       (ProductTypes.Price (ProductTypes.commertialOffer s)))
                    (expectation args)))
               = JS.Returned (JS.boolean b)
               /\ (b = true <->
                   (ProductTypes.ListPrice (ProductTypes.commertialOffer s)
                    <> ProductTypes.Price (ProductTypes.commertialOffer s)
                    <-> expectation args = true))).
  { intro s. eexists. split; [reflexivity |].
    unfold JS.number_sne.
    destruct (Z.eqb_spec
                (ProductTypes.ListPrice (ProductTypes.commertialOffer s))
                (ProductTypes.Price (ProductTypes.commertialOffer s)))
      as [Heq | Hneq];
      destruct (expectation args); simpl; intuition congruence. }
  unfold HANDLERS.hasBestPrice. rewrite Hsellers, Hexp. simpl.
  destruct (find ProductTypes.sellerDefault sellers) as [s |] eqn:Hfind.
  - simpl. destruct (Hres s) as (b & Hb & Hiff).
    exists s, b. split; [| split; assumption].
    left. destruct (find_splits _ _ _ Hfind) as (before & after & H).
    exists before, after. exact H.
  - destruct sellers as [| s rest]; [contradiction |].
    simpl. destruct (Hres s) as (b & Hb & Hiff).
    exists s, b. split; [| split; assumption].
    right. split; [| reflexivity].
    intros x Hx. exact (find_none _ _ Hfind x Hx).
Qed.

(** The examples of the spec: a default seller with list price 100 and
    price 80 has the best price, one with both at 100 has not, and
    [{value: false}] turns both answers around; without a default seller
    the first seller decides. *)
Lemma hasBestPrice_examples :
  HANDLERS.hasBestPrice (withSellers discountedDefault) None
  = JS.Returned (JS.boolean true)
  /\ HANDLERS.hasBestPrice (withSellers undiscountedDefault) None
     = JS.Returned (JS.boolean false)
  /\ HANDLERS.hasBestPrice (withSellers discountedDefault)
       (Some {| Args.BestPrice.value := Some false |})
     = JS.Returned (JS.boolean false)
  /\ HANDLERS.hasBestPrice (withSellers undiscountedDefault)
       (Some {| Args.BestPrice.value := Some false |})
     = JS.Returned (JS.boolean true)
  /\ HANDLERS.hasBestPrice (withSellers noDefault) None
     = JS.Returned (JS.boolean true).
Proof. repeat split. Qed.

Lemma hasBestPrice_spec_witness :
  ContextValues.sellers (withSellers discountedDefault)
  = Some discountedDefault
  /\ discountedDefault <> []
  /\ exists (s : ProductTypes.Seller) (b : bool),
       picksSeller discountedDefault s
       /\ HANDLERS.hasBestPrice (withSellers discountedDefault) None
          = JS.Returned (JS.boolean b)
       /\ (b = true <->
           (ProductTypes.ListPrice (ProductTypes.commertialOffer s)
            <> ProductTypes.Price (ProductTypes.commertialOffer s)
            <-> expectation None = true)).
Proof.
  split; [reflexivity |]. split; [discriminate |].
  apply (hasBestPrice_spec (withSellers discountedDefault)
           discountedDefault None).
  - reflexivity.
  - discriminate.
Defined.

(** ** [hasMoreSellersThan] and [sellerId] *)

(** C7, as the spec states it, fails on values without a seller list: no
    seller is more than minus one seller, and yet the handler answers
    [false], as it does there for every quantity. *)
Lemma hasMoreSellersThan_absent_sellers_negative_quantity :
  ~ (forall (values : ContextValues.t) (quantity : Z),
        HANDLERS.hasMoreSellersThan values (quantityArgs quantity)
        = JS.Returned (JS.boolean true)
        <-> quantity < availableCount values).
Proof.
  intro Hclaim.
  assert (Htrue : HANDLERS.hasMoreSellersThan bareValues (quantityArgs (-1))
                  = JS.Returned (JS.boolean true)).
  { apply Hclaim. unfold availableCount. simpl. lia. }
  discriminate Htrue.
Qed.

(** C7, amended.  [hasMoreSellersThan] returns a boolean, and it is [true]
    exactly when the values carry a seller list and the sellers of that list
    with [AvailableQuantity > 0] are more than [quantity]; without a seller
    list it returns [false] for every quantity. *)
Theorem hasMoreSellersThan_spec
  (values : ContextValues.t) (quantity : Z) :
  (exists b : bool,
      HANDLERS.hasMoreSellersThan values (quantityArgs quantity)
      = JS.Returned (JS.boolean b)
      /\ (b = true <->
          exists sellers,
            ContextValues.sellers values = Some sellers
            /\ quantity < Z.of_nat (List.length (filter available sellers))))
  /\ (ContextValues.sellers values = None ->
      HANDLERS.hasMoreSellersThan values (quantityArgs quantity)
      = JS.Returned (JS.boolean false)).
Proof.
  unfold HANDLERS.hasMoreSellersThan.
  destruct (ContextValues.sellers values) as [sellers |]; simpl.
  - split; [| discriminate].
    unfold JS.length. eexists. split; [reflexivity |].
    rewrite Z.ltb_lt. split.
    + intro Hlt. now exists sellers.
    + intros (sellers' & [= <-] & Hlt). exact Hlt.
  - split; [| reflexivity].
    exists false. split; [reflexivity |].
    split; [discriminate |]. intros (sellers & Habs & _). discriminate.
Qed.

(** Three sellers in stock: more than two, not more than three; and without
    a seller list not even more than minus one. *)
Lemma hasMoreSellersThan_spec_witness :
  HANDLERS.hasMoreSellersThan (withSellers threeAvailable) (quantityArgs 2)
  = JS.Returned (JS.boolean true)
  /\ HANDLERS.hasMoreSellersThan (withSellers threeAvailable) (quantityArgs 3)
     = JS.Returned (JS.boolean false)
  /\ HANDLERS.hasMoreSellersThan bareValues (quantityArgs (-1))
     = JS.Returned (JS.boolean false).
Proof.
  destruct (hasMoreSellersThan_spec (withSellers threeAvailable) 2)
    as ((b2 & H2 & Hb2) & _).
  destruct (hasMoreSellersThan_spec (withSellers threeAvailable) 3)
    as ((b3 & H3 & Hb3) & _).
  split; [| split].
  - rewrite H2. f_equal. f_equal. apply Hb2.
    exists threeAvailable. split; [reflexivity | simpl; lia].
  - rewrite H3. f_equal. f_equal.
    destruct b3; [| reflexivity].
    exfalso. destruct (proj1 Hb3 eq_refl) as (sellers & [= <-] & Hlt).
    simpl in Hlt. lia.
  - apply (proj2 (hasMoreSellersThan_spec bareValues (-1))). reflexivity.
Defined.

(** Without a seller list the answer is [false], whatever the quantity. *)
Lemma hasMoreSellersThan_no_sellers
  (values : ContextValues.t) (args : option Args.Quantity) :
  ContextValues.sellers values = None ->
  HANDLERS.hasMoreSellersThan values args = JS.Returned (JS.boolean false).
Proof.
  intro Hnone. unfold HANDLERS.hasMoreSellersThan. now rewrite Hnone.
Qed.

(** C8.  [sellerId] returns [true] exactly when some seller with
    [AvailableQuantity > 0] has its id among [ids]; when every seller whose
    id is among [ids] is out of stock, it does not return [true]. *)
Theorem sellerId_spec (values : ContextValues.t) (ids : list JS.value) :
  (HANDLERS.sellerId values (idsArgs ids) = JS.Returned (JS.boolean true)
   <-> exists s, availableSellerAmong values ids s)
  /\ ((forall sellers s,
          ContextValues.sellers values = Some sellers ->
          In s sellers ->
          In (ProductTypes.sellerId s) ids ->
          ProductTypes.AvailableQuantity (ProductTypes.commertialOffer s)
          <= 0) ->
      HANDLERS.sellerId values (idsArgs ids)
      <> JS.Returned (JS.boolean true)).
Proof.
  assert (Hiff : HANDLERS.sellerId values (idsArgs ids)
                 = JS.Returned (JS.boolean true)
                 <-> exists s, availableSellerAmong values ids s).
  { unfold HANDLERS.sellerId, availableSellerAmong.
    destruct (ContextValues.sellers values) as [sellers |]; simpl.
    - split.
      + intros [= Hex]. apply existsb_exists in Hex as (s & Hin & Hinc).
        apply filter_In in Hin as [Hin Hav].
        exists s, sellers. repeat split; try assumption.
        * now apply available_spec.
        * now apply includes_In.
      + intros (s & sellers' & [= <-] & Hin & Hav & Hid).
        f_equal. f_equal. apply existsb_exists. exists s. split.
        * apply filter_In. split; [assumption | now apply available_spec].
        * now apply includes_In.
    - split; [discriminate |].
      intros (s & sellers' & Habs & _). discriminate. }
  split; [exact Hiff |].
  intros Hout Htrue. apply Hiff in Htrue.
  destruct Htrue as (s & sellers & Hs & Hin & Hav & Hid).
  specialize (Hout sellers s Hs Hin Hid). lia.
Qed.

(** The example of the spec: an unavailable "s1" does not hide the
    available "s1", and an unavailable "s1" alone does not count. *)
Lemma sellerId_spec_witness :
  HANDLERS.sellerId (withSellers oneOfTwoAvailable) (idsArgs [JS.str "s1"])
  = JS.Returned (JS.boolean true)
  /\ HANDLERS.sellerId (withSellers noneAvailable) (idsArgs [JS.str "s1"])
     <> JS.Returned (JS.boolean true).
Proof.
  split.
  - apply (proj1 (sellerId_spec (withSellers oneOfTwoAvailable)
                    [JS.str "s1"])).
    exists (seller "s1" false 100 90 3), oneOfTwoAvailable.
    repeat split; simpl; auto; lia.
  - apply (proj2 (sellerId_spec (withSellers noneAvailable) [JS.str "s1"])).
    intros sellers s [= <-] Hin Hid. simpl in Hid.
    destruct Hid as [Hid | []].
    destruct Hin as [<- | [<- | []]]; simpl in *; [lia | discriminate].
Defined.

(** ** [specificationProperties] *)

(** The lookup of the handler finds the property named [name]. *)
Lemma find_propertyNamed (name : JS.value)
  (properties : option (list ProductTypes.Property))
  (found : option ProductTypes.Property) :
  propertyNamed name properties found ->
  JS.chain_opt properties
    (find (fun p => JS.strict_equals (ProductTypes.name p) name))
  = found.
Proof.
  destruct found as [p |]; simpl.
  - intros (before & after & -> & Hname & Hbefore). simpl.
    apply find_first.
    + intros q Hq. apply strict_equals_neq. now apply Hbefore.
    + now apply strict_equals_eq.
  - intro Hnone. destruct properties as [ps |]; [| reflexivity]. simpl.
    apply find_absent. intros q Hq.
    apply strict_equals_neq. now apply (Hnone ps).
Qed.

(** Every lookup has an outcome: for every name and every list of
    properties, present or not, there is a [found] that [propertyNamed]
    describes. *)
Lemma propertyNamed_total (name : JS.value)
  (properties : option (list ProductTypes.Property)) :
  exists found, propertyNamed name properties found.
Proof.
  destruct properties as [ps |].
  - destruct (find (fun p => JS.strict_equals (ProductTypes.name p) name) ps)
      as [p |] eqn:Hfind.
    + exists (Some p).
      destruct (find_splits _ _ _ Hfind) as (before & after & -> & Hp & Hb).
      exists before, after. split; [reflexivity |]. split.
      * now apply strict_equals_eq.
      * intros q Hq. apply strict_equals_neq. now apply Hb.
    + exists None. intros ps' p [= <-] Hp.
      apply strict_equals_neq. exact (find_none _ _ Hfind p Hp).
  - exists None. intros ps p Habs. discriminate.
Qed.

(** C6.  [specificationProperties] looks up the property named [args.name];
    it returns [false] when there is none, [true] when there is one and
    [args.value] is omitted, and otherwise [true] exactly when [args.value]
    is among the values of that property. *)
Theorem specificationProperties_spec
  (values : ContextValues.t) (name : JS.value) (value : option string)
  (found : option ProductTypes.Property) :
  propertyNamed name (ContextValues.specificationProperties values) found ->
  exists b : bool,
    HANDLERS.specificationProperties values (specificationArgs name value)
    = JS.Returned (JS.boolean b)
    /\ (b = true <-> specificationHolds found value).
Proof.
  intro Hfound. apply find_propertyNamed in Hfound.
  unfold HANDLERS.specificationProperties, specificationArgs.
  simpl JS.chain. rewrite Hfound.
  destruct found as [p |]; simpl.
  - destruct value as [s |]; simpl.
    + eexists. split; [reflexivity |]. apply includes_In.
    + exists true. split; [reflexivity | tauto].
  - exists false. split; [reflexivity |]. split; [discriminate | tauto].
Qed.

(** "red" is among the values of "color". *)
Lemma specificationProperties_spec_witness :
  propertyNamed (JS.str "color")
    (ContextValues.specificationProperties (withProperties sizeAndColor))
    (Some (property (JS.str "color") [JS.str "red"; JS.str "blue"]))
  /\ HANDLERS.specificationProperties (withProperties sizeAndColor)
       (specificationArgs (JS.str "color") (Some "red"))
     = JS.Returned (JS.boolean true).
Proof.
  assert (Hfound :
            propertyNamed (JS.str "color")
              (ContextValues.specificationProperties
                 (withProperties sizeAndColor))
              (Some (property (JS.str "color") [JS.str "red"; JS.str "blue"]))).
  { exists [property (JS.str "size") [JS.str "M"]], [].
    split; [reflexivity |]. split; [reflexivity |].
    intros q [<- | []]. discriminate. }
  split; [exact Hfound |].
  destruct (specificationProperties_spec (withProperties sizeAndColor)
              (JS.str "color") (Some "red") _ Hfound) as (b & Hb & Hiff).
  rewrite Hb. f_equal. f_equal. apply Hiff. simpl. auto.
Defined.

(** The examples of the spec: without a value the property only has to
    exist, with one the value has to be among its values. *)
Lemma specificationProperties_examples :
  HANDLERS.specificationProperties (withProperties sizeAndColor)
    (specificationArgs (JS.str "color") None)
  = JS.Returned (JS.boolean true)
  /\ HANDLERS.specificationProperties (withProperties sizeAndColor)
       (specificationArgs (JS.str "color") (Some "green"))
     = JS.Returned (JS.boolean false)
  /\ HANDLERS.specificationProperties (withProperties sizeAndColor)
       (specificationArgs (JS.str "weight") None)
     = JS.Returned (JS.boolean false)
  /\ HANDLERS.specificationProperties bareValues
       (specificationArgs (JS.str "color") None)
     = JS.Returned (JS.boolean false).
Proof. repeat split. Qed.

(** C10.  The name of a property is compared with [===]: a property whose
    name differs from [args.name] as a value is not found, even when both
    have the same string form.  The value is looked up as
    [String(args.value)] among the values of the property, which are not
    converted.  The identifier handlers convert both sides. *)
Theorem specificationProperties_strict_name_coerced_value :
  (forall values name value properties,
      ContextValues.specificationProperties values = Some properties ->
      (forall p, In p properties -> ProductTypes.name p <> name) ->
      HANDLERS.specificationProperties values
        (Some {| Args.name := name; Args.value := value |})
      = JS.Returned (JS.boolean false))
  /\ (forall values name value p,
         propertyNamed name (ContextValues.specificationProperties values)
           (Some p) ->
         JS.is_nullish value = false ->
         exists b : bool,
           HANDLERS.specificationProperties values
             (Some {| Args.name := name; Args.value := value |})
           = JS.Returned (JS.boolean b)
           /\ (b = true <->
               In (JS.str (JS.String value)) (ProductTypes.values p)))
  /\ (JS.String (JS.num (JS.int 123 eq_refl)) = JS.String (JS.str "123")
      /\ HANDLERS.specificationProperties (withProperties numericNames)
           (specificationArgs (JS.str "123") None)
         = JS.Returned (JS.boolean false)
      /\ HANDLERS.productId numericProduct (Some {| Args.id := JS.str "123" |})
         = JS.Returned (JS.boolean true))
  /\ (HANDLERS.specificationProperties (withProperties numericNames)
        (Some {| Args.name := JS.str "width";
                 Args.value := JS.num (JS.int 5 eq_refl) |})
      = JS.Returned (JS.boolean true)
      /\ HANDLERS.specificationProperties (withProperties numericNames)
           (Some {| Args.name := JS.str "width";
                 Args.value := JS.num (JS.int 7 eq_refl) |})
         = JS.Returned (JS.boolean false)).
Proof.
  split; [| split; [| split]].
  - intros values name value properties Hprops Hnames.
    unfold HANDLERS.specificationProperties. rewrite Hprops. simpl.
    rewrite find_absent; [reflexivity |].
    intros q Hq. apply strict_equals_neq. now apply Hnames.
  - intros values name value p Hfound Hvalue.
    apply find_propertyNamed in Hfound.
    unfold HANDLERS.specificationProperties. simpl JS.chain.
    rewrite Hfound, Hvalue.
    eexists. split; [reflexivity |]. apply includes_In.
  - repeat split.
  - repeat split.
Qed.

(** A property named by the number 123 is not the property "123", and the
    number 5 is looked up as the string "5". *)
Lemma specificationProperties_strict_name_coerced_value_witness :
  HANDLERS.specificationProperties
    (withProperties [property (JS.num (JS.int 123 eq_refl)) [JS.str "x"]])
    (Some {| Args.name := JS.str "123"; Args.value := JS.str "x" |})
  = JS.Returned (JS.boolean false)
  /\ exists b : bool,
       HANDLERS.specificationProperties (withProperties numericNames)
         (Some {| Args.name := JS.str "width";
                 Args.value := JS.num (JS.int 5 eq_refl) |})
       = JS.Returned (JS.boolean b)
       /\ (b = true <->
           In (JS.str (JS.String (JS.num (JS.int 5 eq_refl))))
              [JS.str "5"; JS.num (JS.int 7 eq_refl)]).
Proof.
  destruct specificationProperties_strict_name_coerced_value
    as (Hstrict & Hcoerced & _).
  split.
  - apply (Hstrict
             (withProperties
                [property (JS.num (JS.int 123 eq_refl)) [JS.str "x"]])
             (JS.str "123") (JS.str "x")
             [property (JS.num (JS.int 123 eq_refl)) [JS.str "x"]] eq_refl).
    intros p [<- | []]. discriminate.
  - apply (Hcoerced (withProperties numericNames) (JS.str "width")
             (JS.num (JS.int 5 eq_refl))
             (property (JS.str "width")
                [JS.str "5"; JS.num (JS.int 7 eq_refl)])).
    + exists [property (JS.num (JS.int 123 eq_refl)) [JS.str "x"]], [].
      split; [reflexivity |]. split; [reflexivity |].
      intros q [<- | []]. discriminate.
    + reflexivity.
Defined.

(** ** Totality of the registry *)

(** Nine of the thirteen handlers return a boolean whatever the values and
    the arguments are, absent collections included. *)
Lemma handlers_returning_boolean
  (k : Key.t) (values : ContextValues.t) (args : HandlerArguments k) :
  alwaysBoolean k = true ->
  exists b : bool, handler k values args = JS.Returned (JS.boolean b).
Proof.
  destruct k; simpl; intro Hk; try discriminate;
    try (eexists; reflexivity).
  unfold HANDLERS.specificationProperties.
  destruct (JS.chain_opt _ _); [| eexists; reflexivity].
  destruct (JS.is_nullish _); eexists; reflexivity.
Qed.

(** [areAllVariationsSelected] hands the flag over as it is. *)
Lemma areAllVariationsSelected_returns_flag (values : ContextValues.t) :
  handler Key.areAllVariationsSelected values tt
  = JS.Returned (ContextValues.areAllVariationsSelected values).
Proof. reflexivity. Qed.

(** [productClusterHighlights] and [sellerId] return a boolean when the
    collection they query is there. *)
Lemma productClusterHighlights_present
  (values : ContextValues.t) (args : option Args.Id)
  (entries : list ProductTypes.Entry) :
  ContextValues.clusterHighlights values = Some entries ->
  HANDLERS.productClusterHighlights values args
  = JS.Returned (JS.boolean (existsb (sameId args) entries)).
Proof.
  intro Hentries. unfold HANDLERS.productClusterHighlights.
  now rewrite Hentries.
Qed.

Lemma sellerId_present
  (values : ContextValues.t) (args : option Args.Ids)
  (sellers : list ProductTypes.Seller) :
  ContextValues.sellers values = Some sellers ->
  exists b : bool,
    HANDLERS.sellerId values args = JS.Returned (JS.boolean b).
Proof.
  intro Hsellers. unfold HANDLERS.sellerId. rewrite Hsellers. simpl.
  eexists. reflexivity.
Qed.

(** C2.  The registry is not total and not boolean-valued: [hasBestPrice]
    throws on an empty seller list and on an absent one, and
    [productClusterHighlights] and [sellerId] return [undefined], not
    [false], when the collection they query is absent. *)
Theorem handlers_not_total_boolean :
  handler Key.hasBestPrice (withSellers []) None = JS.Threw JS.TypeError
  /\ handler Key.hasBestPrice bareValues None = JS.Threw JS.TypeError
  /\ handler Key.productClusterHighlights bareValues
       (Some {| Args.id := JS.str "A" |})
     = JS.Returned JS.undefined
  /\ handler Key.sellerId bareValues (idsArgs [JS.str "s1"])
     = JS.Returned JS.undefined.
Proof. repeat split. Qed.

(** ** The membership handlers *)

Lemma sameId_spec (args : option Args.Id) (e : ProductTypes.Entry) :
  sameId args e = true <->
  JS.String (ProductTypes.id e) = JS.String (JS.chain args Args.id).
Proof. unfold sameId. apply String.eqb_eq. Qed.

(** [Boolean(xs.find(f))] is [xs.some(f)]. *)
Lemma Boolean_find_some {A : Type} (f : A -> bool) (xs : list A) :
  JS.Boolean_object (find f xs) = existsb f xs.
Proof.
  induction xs as [| x xs IH]; simpl; [reflexivity |].
  destruct (f x); [reflexivity | exact IH].
Qed.

Lemma existsb_sameId (id : JS.value) (es : list ProductTypes.Entry) :
  existsb (sameId (idArgs id)) es = true <-> hasEntry (Some es) id.
Proof.
  rewrite existsb_exists. split.
  - intros (e & Hin & Hsame). apply sameId_spec in Hsame.
    exists es, e. repeat split; assumption.
  - intros (es' & e & [= <-] & Hin & Hsame).
    exists e. split; [assumption | now apply sameId_spec].
Qed.

Lemma hasEntry_absent (id : JS.value) : ~ hasEntry None id.
Proof. intros (es & e & Habs & _). discriminate. Qed.

(** X1.  [productClusters] returns a boolean on every input, and it is
    [true] exactly when the cluster list is there and holds an entry whose
    id has the string form of [args.id]; an absent or empty list gives
    [false]. *)
Theorem productClusters_spec (values : ContextValues.t) (id : JS.value) :
  exists b : bool,
    HANDLERS.productClusters values (idArgs id) = JS.Returned (JS.boolean b)
    /\ (b = true <-> hasEntry (ContextValues.productClusters values) id).
Proof.
  unfold HANDLERS.productClusters.
  destruct (ContextValues.productClusters values) as [es |]; simpl.
  - eexists. split; [reflexivity |].
    rewrite Boolean_find_some. apply existsb_sameId.
  - exists false. split; [reflexivity |].
    split; [discriminate | intro H; destruct (hasEntry_absent id H)].
Qed.

(** X2.  [categoryTree] returns a boolean on every input, and it is [true]
    exactly when the category tree is there and holds an entry whose id has
    the string form of [args.id]. *)
Theorem categoryTree_spec (values : ContextValues.t) (id : JS.value) :
  exists b : bool,
    HANDLERS.categoryTree values (idArgs id) = JS.Returned (JS.boolean b)
    /\ (b = true <-> hasEntry (ContextValues.categoryTree values) id).
Proof.
  unfold HANDLERS.categoryTree.
  destruct (ContextValues.categoryTree values) as [es |]; simpl.
  - eexists. split; [reflexivity |].
    rewrite Boolean_find_some. apply existsb_sameId.
  - exists false. split; [reflexivity |].
    split; [discriminate | intro H; destruct (hasEntry_absent id H)].
Qed.

(** X3.  [productClusterHighlights] returns [true] exactly when the list of
    highlights is there and holds an entry whose id has the string form of
    [args.id]; it returns [undefined] exactly when the list is absent, and a
    boolean otherwise. *)
Theorem productClusterHighlights_spec
  (values : ContextValues.t) (id : JS.value) :
  (HANDLERS.productClusterHighlights values (idArgs id)
   = JS.Returned (JS.boolean true)
   <-> hasEntry (ContextValues.clusterHighlights values) id)
  /\ (HANDLERS.productClusterHighlights values (idArgs id)
      = JS.Returned JS.undefined
      <-> ContextValues.clusterHighlights values = None)
  /\ (ContextValues.clusterHighlights values <> None <->
      exists b : bool,
        HANDLERS.productClusterHighlights values (idArgs id)
        = JS.Returned (JS.boolean b)).
Proof.
  unfold HANDLERS.productClusterHighlights.
  destruct (ContextValues.clusterHighlights values) as [es |].
  - split; [| split].
    + rewrite <- existsb_sameId. split.
      * now intros [= ->].
      * now intros ->.
    + split; discriminate.
    + split; [intros _; eexists; reflexivity | discriminate].
  - split; [| split].
    + split; [discriminate | intro H; destruct (hasEntry_absent id H)].
    + split; reflexivity.
    + split; [congruence | intros [b Hb]; discriminate].
Qed.

(** X4.  On one and the same list, [productClusters], [categoryTree] and
    [productClusterHighlights] give the same answer, whatever the
    arguments: [Boolean(list.find(f))] and [list.some(f)] agree. *)
Theorem membership_handlers_agree
  (values : ContextValues.t) (entries : list ProductTypes.Entry)
  (args : option Args.Id) :
  ContextValues.productClusters values = Some entries ->
  ContextValues.clusterHighlights values = Some entries ->
  ContextValues.categoryTree values = Some entries ->
  HANDLERS.productClusters values args
  = HANDLERS.productClusterHighlights values args
  /\ HANDLERS.categoryTree values args
     = HANDLERS.productClusterHighlights values args.
Proof.
  intros Hclusters Hhighlights Htree.
  unfold HANDLERS.productClusters, HANDLERS.categoryTree,
    HANDLERS.productClusterHighlights.
  rewrite Hclusters, Hhighlights, Htree. simpl.
  now rewrite Boolean_find_some.
Qed.

Lemma membership_handlers_agree_witness :
  HANDLERS.productClusters
    (withEntries [entry (JS.num (JS.int 7 eq_refl)); entry (JS.str "A")])
    (idArgs (JS.str "7"))
  = HANDLERS.productClusterHighlights
      (withEntries [entry (JS.num (JS.int 7 eq_refl)); entry (JS.str "A")])
      (idArgs (JS.str "7"))
  /\ HANDLERS.categoryTree
       (withEntries [entry (JS.num (JS.int 7 eq_refl)); entry (JS.str "A")])
       (idArgs (JS.str "7"))
     = HANDLERS.productClusterHighlights
         (withEntries [entry (JS.num (JS.int 7 eq_refl)); entry (JS.str "A")])
         (idArgs (JS.str "7")).
Proof.
  apply (membership_handlers_agree
           (withEntries [entry (JS.num (JS.int 7 eq_refl)); entry (JS.str "A")])
           [entry (JS.num (JS.int 7 eq_refl)); entry (JS.str "A")]
           (idArgs (JS.str "7")));
    reflexivity.
Defined.

(** ** The seller handlers *)

Lemma existsb_available (sellers : list ProductTypes.Seller) :
  existsb available sellers = true <->
  exists s,
    In s sellers
    /\ 0 < ProductTypes.AvailableQuantity (ProductTypes.commertialOffer s).
Proof.
  rewrite existsb_exists. split; intros (s & Hin & Hav); exists s;
    (split; [assumption | now apply available_spec]).
Qed.

(** [xs.some(f)] holds exactly when [xs.filter(f)] is not empty. *)
Lemma existsb_filter_length {A : Type} (f : A -> bool) (xs : list A) :
  existsb f xs = (0 <? JS.length (filter f xs))%Z.
Proof.
  unfold JS.length.
  induction xs as [| x xs IH]; simpl; [reflexivity |].
  destruct (f x); simpl; [| exact IH].
  symmetry. apply Z.ltb_lt. lia.
Qed.

(** X5.  [isProductAvailable] returns a boolean on every input, and it is
    [true] exactly when some seller has [AvailableQuantity > 0]; an absent
    or empty seller list gives [false]. *)
Theorem isProductAvailable_spec (values : ContextValues.t) :
  exists b : bool,
    HANDLERS.isProductAvailable values tt = JS.Returned (JS.boolean b)
    /\ (b = true <-> exists s, inStock values s).
Proof.
  unfold HANDLERS.isProductAvailable, inStock.
  destruct (ContextValues.sellers values) as [sellers |]; simpl.
  - eexists. split; [reflexivity |].
    rewrite existsb_available. split.
    + intros (s & Hin & Hav). exists s, sellers. auto.
    + intros (s & sellers' & [= <-] & Hin & Hav). exists s. auto.
  - exists false. split; [reflexivity |]. split; [discriminate |].
    intros (s & sellers & Habs & _). discriminate.
Qed.

(** X6.  [isProductAvailable] is [hasMoreSellersThan({ quantity: 0 })]: the
    two handlers return the same value on every input, the absent seller
    list included. *)
Theorem isProductAvailable_is_hasMoreSellersThan_zero
  (values : ContextValues.t) :
  HANDLERS.isProductAvailable values tt
  = HANDLERS.hasMoreSellersThan values (quantityArgs 0).
Proof.
  unfold HANDLERS.isProductAvailable, HANDLERS.hasMoreSellersThan.
  destruct (ContextValues.sellers values) as [sellers |]; simpl;
    [| reflexivity].
  now rewrite existsb_filter_length.
Qed.

(** X7.  Whatever its arguments, [sellerId] can only return [true] when
    [isProductAvailable] does. *)
Theorem sellerId_implies_isProductAvailable
  (values : ContextValues.t) (args : option Args.Ids) :
  HANDLERS.sellerId values args = JS.Returned (JS.boolean true) ->
  HANDLERS.isProductAvailable values tt = JS.Returned (JS.boolean true).
Proof.
  unfold HANDLERS.sellerId, HANDLERS.isProductAvailable.
  destruct (ContextValues.sellers values) as [sellers |]; simpl;
    [| discriminate].
  intros [= Hex]. f_equal. f_equal.
  apply existsb_exists in Hex as (s & Hin & _).
  apply filter_In in Hin as [Hin Hav].
  apply existsb_exists. now exists s.
Qed.

Lemma sellerId_implies_isProductAvailable_witness :
  HANDLERS.sellerId (withSellers oneOfTwoAvailable) (idsArgs [JS.str "s1"])
  = JS.Returned (JS.boolean true)
  /\ HANDLERS.isProductAvailable (withSellers oneOfTwoAvailable) tt
     = JS.Returned (JS.boolean true).
Proof.
  split; [reflexivity |].
  apply (sellerId_implies_isProductAvailable
           (withSellers oneOfTwoAvailable) (idsArgs [JS.str "s1"])).
  reflexivity.
Defined.

(** X8.  [hasMoreSellersThan] is antitone in the quantity: when it returns
    [true] for a quantity, it returns [true] for every smaller one. *)
Theorem hasMoreSellersThan_antitone
  (values : ContextValues.t) (quantity smaller : Z) :
  smaller <= quantity ->
  HANDLERS.hasMoreSellersThan values (quantityArgs quantity)
  = JS.Returned (JS.boolean true) ->
  HANDLERS.hasMoreSellersThan values (quantityArgs smaller)
  = JS.Returned (JS.boolean true).
Proof.
  intro Hle. unfold HANDLERS.hasMoreSellersThan.
  destruct (ContextValues.sellers values) as [sellers |]; simpl;
    [| discriminate].
  intros [= Hlt]. f_equal. f_equal.
  apply Z.ltb_lt in Hlt. apply Z.ltb_lt. lia.
Qed.

Lemma hasMoreSellersThan_antitone_witness :
  1 <= 2
  /\ HANDLERS.hasMoreSellersThan (withSellers threeAvailable) (quantityArgs 2)
     = JS.Returned (JS.boolean true)
  /\ HANDLERS.hasMoreSellersThan (withSellers threeAvailable) (quantityArgs 1)
     = JS.Returned (JS.boolean true).
Proof.
  split; [lia |]. split; [reflexivity |].
  apply (hasMoreSellersThan_antitone (withSellers threeAvailable) 2 1);
    [lia | reflexivity].
Defined.

(** X9.  [hasMoreSellersThan] never returns [true] without a seller list,
    nor for a quantity that reaches the number of sellers of the list, in
    stock or not. *)
Theorem hasMoreSellersThan_bounded
  (values : ContextValues.t) (quantity : Z) :
  HANDLERS.hasMoreSellersThan values (quantityArgs quantity)
  = JS.Returned (JS.boolean true) ->
  exists sellers,
    ContextValues.sellers values = Some sellers
    /\ quantity < Z.of_nat (List.length sellers).
Proof.
  unfold HANDLERS.hasMoreSellersThan.
  destruct (ContextValues.sellers values) as [sellers |]; simpl;
    [| discriminate].
  intros [= Hlt]. exists sellers. split; [reflexivity |].
  apply Z.ltb_lt in Hlt. unfold JS.length in Hlt.
  pose proof (filter_length_le available sellers). lia.
Qed.

Lemma hasMoreSellersThan_bounded_witness :
  HANDLERS.hasMoreSellersThan (withSellers threeAvailable) (quantityArgs 2)
  = JS.Returned (JS.boolean true)
  /\ exists sellers,
       ContextValues.sellers (withSellers threeAvailable) = Some sellers
       /\ 2 < Z.of_nat (List.length sellers).
Proof.
  split; [reflexivity |].
  apply (hasMoreSellersThan_bounded (withSellers threeAvailable) 2).
  reflexivity.
Defined.

Lemma includes_app (x : JS.value) (xs ys : list JS.value) :
  JS.includes x (xs ++ ys) = JS.includes x xs || JS.includes x ys.
Proof. unfold JS.includes. apply existsb_app. Qed.

Lemma existsb_pointwise {A : Type} (f g : A -> bool) (xs : list A) :
  (forall x, f x = g x) -> existsb f xs = existsb g xs.
Proof.
  intro Hfg. induction xs as [| x xs IH]; simpl; [reflexivity |].
  now rewrite Hfg, IH.
Qed.

Lemma existsb_orb {A : Type} (f g : A -> bool) (xs : list A) :
  existsb (fun x => f x || g x) xs = existsb f xs || existsb g xs.
Proof.
  induction xs as [| x xs IH]; simpl; [reflexivity |].
  rewrite IH. destruct (f x), (g x), (existsb f xs), (existsb g xs);
    reflexivity.
Qed.

(** X10.  [sellerId] distributes over the list of ids: it returns [true]
    for the ids of two lists put together exactly when it returns [true]
    for one of the lists; for the empty list of ids it never returns
    [true]. *)
Theorem sellerId_ids_union
  (values : ContextValues.t) (ids more : list JS.value) :
  (HANDLERS.sellerId values (idsArgs (ids ++ more))
   = JS.Returned (JS.boolean true)
   <-> HANDLERS.sellerId values (idsArgs ids) = JS.Returned (JS.boolean true)
       \/ HANDLERS.sellerId values (idsArgs more)
          = JS.Returned (JS.boolean true))
  /\ HANDLERS.sellerId values (idsArgs []) <> JS.Returned (JS.boolean true).
Proof.
  unfold HANDLERS.sellerId.
  destruct (ContextValues.sellers values) as [sellers |]; simpl.
  - split.
    + rewrite (existsb_pointwise _
                 (fun s => JS.includes (ProductTypes.sellerId s) ids
                           || JS.includes (ProductTypes.sellerId s) more))
        by (intros s; simpl; apply includes_app).
      rewrite existsb_orb.
      destruct (existsb _ (filter available sellers));
        destruct (existsb _ (filter available sellers)); simpl;
        split; try tauto; try discriminate; intros [H | H]; discriminate.
    + intros [= Hex]. apply existsb_exists in Hex as (s & _ & Habs).
      discriminate.
  - split; [| discriminate].
    split; [discriminate | intros [H | H]; discriminate].
Qed.

(** ** More on [hasBestPrice] *)

(** X11.  [hasBestPrice] throws exactly when the seller list is absent or
    empty, whatever the arguments; on every other input it returns. *)
Theorem hasBestPrice_throws_iff
  (values : ContextValues.t) (args : option Args.BestPrice.t) :
  HANDLERS.hasBestPrice values args = JS.Threw JS.TypeError
  <-> ContextValues.sellers values = None
      \/ ContextValues.sellers values = Some [].
Proof.
  unfold HANDLERS.hasBestPrice.
  destruct (ContextValues.sellers values) as [[| s rest] |]; simpl.
  - split; [now right | reflexivity].
  - destruct (ProductTypes.sellerDefault s); simpl.
    + split; [discriminate | intros [H | H]; discriminate].
    + destruct (find ProductTypes.sellerDefault rest); simpl;
        (split; [discriminate | intros [H | H]; discriminate]).
  - split; [now left | reflexivity].
Qed.

Lemma hasBestPrice_picks (values : ContextValues.t)
  (s : ProductTypes.Seller) (rest : list ProductTypes.Seller)
  (args : option Args.BestPrice.t) :
  ContextValues.sellers values = Some (s :: rest) ->
  exists t,
    HANDLERS.hasBestPrice values args
    = JS.Returned (JS.boolean
        (Bool.eqb
           (JS.number_sne
              (ProductTypes.ListPrice (ProductTypes.commertialOffer t))
              (ProductTypes.Price (ProductTypes.commertialOffer t)))
           (JS.coalesce (JS.chain_opt args Args.BestPrice.value) true)))
    /\ match find ProductTypes.sellerDefault (s :: rest) with
       | Some d => t = d
       | None => t = s
       end.
Proof.
  intro Hsellers. unfold HANDLERS.hasBestPrice. rewrite Hsellers.
  cbv beta iota delta [JS.chain_opt].
  destruct (find ProductTypes.sellerDefault (s :: rest)) as [d |].
  - exists d. split; reflexivity.
  - exists s. split; reflexivity.
Qed.

(** X12.  On a non-empty seller list the answers of [hasBestPrice] for
    [{ value: true }] and [{ value: false }] are booleans opposite to each
    other, and the answer without arguments is the one for
    [{ value: true }]. *)
Theorem hasBestPrice_value_flips
  (values : ContextValues.t) (s : ProductTypes.Seller)
  (rest : list ProductTypes.Seller) :
  ContextValues.sellers values = Some (s :: rest) ->
  exists b : bool,
    HANDLERS.hasBestPrice values (valueArgs true)
    = JS.Returned (JS.boolean b)
    /\ HANDLERS.hasBestPrice values (valueArgs false)
       = JS.Returned (JS.boolean (negb b))
    /\ HANDLERS.hasBestPrice values None = JS.Returned (JS.boolean b).
Proof.
  intro Hsellers.
  destruct (hasBestPrice_picks values s rest (valueArgs true) Hsellers)
    as (t & Htrue & Ht).
  destruct (hasBestPrice_picks values s rest (valueArgs false) Hsellers)
    as (t' & Hfalse & Ht').
  destruct (hasBestPrice_picks values s rest None Hsellers)
    as (t'' & Hnone & Ht'').
  assert (t' = t /\ t'' = t) as [-> ->].
  { destruct (find ProductTypes.sellerDefault (s :: rest));
      split; congruence. }
  eexists. split; [exact Htrue |]. split.
  - rewrite Hfalse. simpl. f_equal. f_equal.
    now destruct (JS.number_sne _ _).
  - rewrite Hnone. reflexivity.
Qed.

Lemma hasBestPrice_value_flips_witness :
  ContextValues.sellers (withSellers discountedDefault)
  = Some discountedDefault
  /\ exists b : bool,
       HANDLERS.hasBestPrice (withSellers discountedDefault) (valueArgs true)
       = JS.Returned (JS.boolean b)
       /\ HANDLERS.hasBestPrice (withSellers discountedDefault)
            (valueArgs false)
          = JS.Returned (JS.boolean (negb b))
       /\ HANDLERS.hasBestPrice (withSellers discountedDefault) None
          = JS.Returned (JS.boolean b).
Proof.
  split; [reflexivity |].
  apply (hasBestPrice_value_flips (withSellers discountedDefault)
           (seller "s1" false 50 50 1) [seller "s2" true 100 80 1]).
  reflexivity.
Defined.

Lemma find_sameOffer (sellers sellers' : list ProductTypes.Seller) :
  Forall2 sameOffer sellers sellers' ->
  match find ProductTypes.sellerDefault sellers,
        find ProductTypes.sellerDefault sellers' with
  | Some d, Some d' => sameOffer d d'
  | None, None => True
  | _, _ => False
  end.
Proof.
  induction 1 as [| s s' rest rest' Hs Hrest IH]; simpl; [exact I |].
  pose proof Hs as (Hdefault & _).
  rewrite <- Hdefault.
  destruct (ProductTypes.sellerDefault s); [exact Hs | exact IH].
Qed.

(** X13.  [hasBestPrice] reads the default marks and the prices of the
    sellers and nothing else: two seller lists that agree on them, seller by
    seller, get the same answer, whatever the ids and the stock of the
    sellers.  A default seller that is out of stock still decides. *)
Theorem hasBestPrice_ignores_stock
  (values values' : ContextValues.t)
  (sellers sellers' : list ProductTypes.Seller)
  (args : option Args.BestPrice.t) :
  ContextValues.sellers values = Some sellers ->
  ContextValues.sellers values' = Some sellers' ->
  Forall2 sameOffer sellers sellers' ->
  HANDLERS.hasBestPrice values args = HANDLERS.hasBestPrice values' args.
Proof.
  intros Hsellers Hsellers' Hsame.
  pose proof (find_sameOffer _ _ Hsame) as Hfind.
  unfold HANDLERS.hasBestPrice. rewrite Hsellers, Hsellers'. simpl.
  destruct (find ProductTypes.sellerDefault sellers) as [d |],
           (find ProductTypes.sellerDefault sellers') as [d' |];
    try contradiction; simpl.
  - destruct Hfind as (_ & -> & ->). reflexivity.
  - destruct Hsame as [| s s' rest rest' (_ & Hlist & Hprice) _]; simpl;
      [reflexivity |].
    now rewrite Hlist, Hprice.
Qed.

Lemma hasBestPrice_ignores_stock_witness :
  Forall2 sameOffer discountedDefault discountedDefaultSoldOut
  /\ HANDLERS.hasBestPrice (withSellers discountedDefault) None
     = HANDLERS.hasBestPrice (withSellers discountedDefaultSoldOut) None.
Proof.
  assert (Hsame : Forall2 sameOffer discountedDefault
                    discountedDefaultSoldOut).
  { repeat constructor. }
  split; [exact Hsame |].
  apply (hasBestPrice_ignores_stock (withSellers discountedDefault)
           (withSellers discountedDefaultSoldOut)
           discountedDefault discountedDefaultSoldOut None);
    [reflexivity | reflexivity | exact Hsame].
Defined.

(** ** More on [specificationProperties] *)

(** X14.  [specificationProperties] only consults the first property with
    the name it is given: what follows that property in the list, other
    properties of the same name included, does not change the answer. *)
Theorem specificationProperties_first_name_wins
  (values values' : ContextValues.t)
  (before after after' : list ProductTypes.Property)
  (p : ProductTypes.Property) (name value : JS.value) :
  ContextValues.specificationProperties values
  = Some (before ++ p :: after) ->
  ContextValues.specificationProperties values'
  = Some (before ++ p :: after') ->
  ProductTypes.name p = name ->
  HANDLERS.specificationProperties values
    (Some {| Args.name := name; Args.value := value |})
  = HANDLERS.specificationProperties values'
      (Some {| Args.name := name; Args.value := value |}).
Proof.
  intros Hprops Hprops' Hname.
  unfold HANDLERS.specificationProperties.
  rewrite Hprops, Hprops'. simpl JS.chain.
  clear Hprops Hprops'.
  assert (Hfind : forall rest,
             JS.chain_opt (Some (before ++ p :: rest))
               (find (fun q => JS.strict_equals (ProductTypes.name q) name))
             = JS.chain_opt (Some (before ++ [p]))
                 (find (fun q =>
                          JS.strict_equals (ProductTypes.name q) name))).
  { intro rest. simpl.
    induction before as [| q before IH]; simpl.
    - now rewrite (proj2 (strict_equals_eq _ _) Hname).
    - destruct (JS.strict_equals (ProductTypes.name q) name);
        [reflexivity | exact IH]. }
  now rewrite (Hfind after), (Hfind after').
Qed.

(** The second "color" lists "red", the first does not: the answer is
    [false], as it is without the second. *)
Lemma specificationProperties_first_name_wins_witness :
  HANDLERS.specificationProperties (withProperties twoColors)
    (Some {| Args.name := JS.str "color"; Args.value := JS.str "red" |})
  = HANDLERS.specificationProperties
      (withProperties [property (JS.str "color") [JS.str "blue"]])
      (Some {| Args.name := JS.str "color"; Args.value := JS.str "red" |})
  /\ HANDLERS.specificationProperties (withProperties twoColors)
       (Some {| Args.name := JS.str "color"; Args.value := JS.str "red" |})
     = JS.Returned (JS.boolean false).
Proof.
  split; [| reflexivity].
  apply (specificationProperties_first_name_wins
           (withProperties twoColors)
           (withProperties [property (JS.str "color") [JS.str "blue"]])
           [] [property (JS.str "color") [JS.str "red"]] []
           (property (JS.str "color") [JS.str "blue"]));
    reflexivity.
Defined.

(** X15.  A condition on a value is stronger than the condition on the
    name alone: when [specificationProperties] returns [true] for a name
    and a value, it returns [true] for the name without value. *)
Theorem specificationProperties_value_implies_name
  (values : ContextValues.t) (name value : JS.value) :
  HANDLERS.specificationProperties values
    (Some {| Args.name := name; Args.value := value |})
  = JS.Returned (JS.boolean true) ->
  HANDLERS.specificationProperties values
    (Some {| Args.name := name; Args.value := JS.undefined |})
  = JS.Returned (JS.boolean true).
Proof.
  unfold HANDLERS.specificationProperties. simpl JS.chain.
  destruct (JS.chain_opt _ _) as [p |]; simpl; [| discriminate].
  reflexivity.
Qed.

Lemma specificationProperties_value_implies_name_witness :
  HANDLERS.specificationProperties (withProperties sizeAndColor)
    (Some {| Args.name := JS.str "color"; Args.value := JS.str "red" |})
  = JS.Returned (JS.boolean true)
  /\ HANDLERS.specificationProperties (withProperties sizeAndColor)
       (Some {| Args.name := JS.str "color"; Args.value := JS.undefined |})
     = JS.Returned (JS.boolean true).
Proof.
  split; [reflexivity |].
  apply (specificationProperties_value_implies_name
           (withProperties sizeAndColor) (JS.str "color") (JS.str "red")).
  reflexivity.
Defined.

(** ** The three outcomes of the component *)

Lemma contextValues_throws (ctx : option ProductTypes.ProductContextState) :
  contextValues ctx = JS.Threw JS.TypeError <-> nullSkuSelector ctx.
Proof.
  unfold contextValues, nullSkuSelector.
  destruct ctx as [state |]; simpl.
  - destruct (ProductTypes.skuSelector state) as [| | [flag]] eqn:Hsku; simpl.
    + split; [discriminate |]. intros (st & [= <-] & Habs). congruence.
    + split; [| reflexivity]. intros _. now exists state.
    + destruct flag; simpl;
        (split; [discriminate |]; intros (st & [= <-] & Habs); congruence).
  - split; [discriminate |]. intros (st & Habs & _). discriminate.
Qed.

Lemma contextValues_identity
  (ctx : option ProductTypes.ProductContextState) (values : ContextValues.t) :
  contextValues ctx = JS.Returned values ->
  (notReady values = true <-> missingIdentity ctx).
Proof.
  unfold contextValues, notReady, missingIdentity.
  destruct (destructureSkuSelector _); simpl; [| discriminate].
  intros [= <-]. simpl.
  destruct ctx as [state |]; simpl; [| tauto].
  destruct (ProductTypes.product state) as [product |],
           (ProductTypes.selectedItem state) as [item |]; simpl;
    rewrite ?Bool.orb_true_iff, ?Bool.orb_true_r; tauto.
Qed.

(** X16.  When the product and the selected item are there with their ids
    and the sku selector is not [null], the component renders
    [ConditionLayout]: [Else], [Then], [matchType], [conditions] and
    [children] are handed over unchanged, and the values are the fields of
    the product and of the selected item. *)
Theorem ConditionLayoutProduct_renders_layout
  (ComponentType ReactNode : Type) (props : Props ComponentType ReactNode)
  (state : ProductTypes.ProductContextState)
  (product : ProductTypes.Product) (item : ProductTypes.Item) :
  ProductTypes.product state = Some product ->
  ProductTypes.selectedItem state = Some item ->
  JS.is_nullish (ProductTypes.productId product) = false ->
  JS.is_nullish (ProductTypes.itemId item) = false ->
  ProductTypes.skuSelector state <> JS.Null ->
  exists flag,
    flag <> JS.undefined
    /\ ConditionLayoutProduct props (Some state)
       = JS.Returned
           (ConditionLayout (Else props) (Then props) (matchType props)
              (conditions props)
              {| ContextValues.productId := ProductTypes.productId product;
                 ContextValues.categoryId := ProductTypes.categoryId product;
                 ContextValues.brandId := ProductTypes.brandId product;
                 ContextValues.productClusters :=
                   ProductTypes.productClusters product;
                 ContextValues.clusterHighlights :=
                   ProductTypes.clusterHighlights product;
                 ContextValues.categoryTree :=
                   ProductTypes.categoryTree product;
                 ContextValues.selectedItemId := ProductTypes.itemId item;
                 ContextValues.specificationProperties :=
                   ProductTypes.properties product;
                 ContextValues.areAllVariationsSelected := flag;
                 ContextValues.sellers := ProductTypes.sellers item |}
              (children props)).
Proof.
  intros Hproduct Hitem Hpid Hiid Hsku.
  unfold ConditionLayoutProduct, contextValues, notReady. simpl.
  rewrite Hproduct, Hitem. simpl.
  destruct (destructureSkuSelector (ProductTypes.skuSelector state))
    as [flag | []] eqn:Hflag.
  - exists flag. split.
    + now apply destructureSkuSelector_defined with (1 := Hflag).
    + simpl. now rewrite Hpid, Hiid.
  - destruct (ProductTypes.skuSelector state) as [| | [f]];
      [discriminate | contradiction |].
    simpl in Hflag. destruct f; discriminate.
Qed.

Lemma ConditionLayoutProduct_renders_layout_witness :
  exists flag,
    flag <> JS.undefined
    /\ ConditionLayoutProduct noProps (Some fullState)
       = JS.Returned
           (ConditionLayout None None None []
              {| ContextValues.productId := JS.num (JS.int 123 eq_refl);
                 ContextValues.categoryId := JS.str "10";
                 ContextValues.brandId := JS.str "20";
                 ContextValues.productClusters := Some [entry (JS.str "A")];
                 ContextValues.clusterHighlights := Some [];
                 ContextValues.categoryTree :=
                   Some [entry (JS.num (JS.int 10 eq_refl))];
                 ContextValues.selectedItemId := JS.str "2";
                 ContextValues.specificationProperties := Some sizeAndColor;
                 ContextValues.areAllVariationsSelected := flag;
                 ContextValues.sellers := Some threeAvailable |}
              tt).
Proof.
  apply (ConditionLayoutProduct_renders_layout unit unit noProps fullState
           fullProduct fullItem);
    try reflexivity.
  discriminate.
Defined.

(** X17.  The component throws exactly when the sku selector of the context
    is [null]: the destructuring default [= {}] only covers [undefined].  No
    other context makes it throw. *)
Theorem ConditionLayoutProduct_throws_iff
  (ComponentType ReactNode : Type) (props : Props ComponentType ReactNode)
  (ctx : option ProductTypes.ProductContextState) :
  ConditionLayoutProduct props ctx = JS.Threw JS.TypeError
  <-> nullSkuSelector ctx.
Proof.
  rewrite <- contextValues_throws.
  unfold ConditionLayoutProduct.
  destruct (contextValues ctx) as [values | []]; simpl.
  - destruct (notReady values); split; discriminate.
  - split; reflexivity.
Qed.

(** X18.  The component renders [null] exactly when the sku selector is not
    [null] and the context lacks the product id or the id of the selected
    item; the props play no part in it. *)
Theorem ConditionLayoutProduct_null_iff
  (ComponentType ReactNode : Type) (props : Props ComponentType ReactNode)
  (ctx : option ProductTypes.ProductContextState) :
  ConditionLayoutProduct props ctx = JS.Returned RenderNull
  <-> ~ nullSkuSelector ctx /\ missingIdentity ctx.
Proof.
  unfold ConditionLayoutProduct.
  destruct (contextValues ctx) as [values | []] eqn:Hvalues; simpl.
  - pose proof (contextValues_identity ctx values Hvalues) as Hid.
    assert (Hsku : ~ nullSkuSelector ctx).
    { intro Hnull. apply contextValues_throws in Hnull. congruence. }
    destruct (notReady values).
    + split; [intros _; split; [exact Hsku | now apply Hid] | reflexivity].
    + split; [discriminate |]. intros [_ Hmissing].
      apply Hid in Hmissing. discriminate.
  - split; [discriminate |]. intros [Hsku _].
    apply contextValues_throws in Hvalues. contradiction.
Qed.

(** X19.  The flag [areAllVariationsSelected] of the values is [false] when
    [useProduct()] returned nothing, when the sku selector is [undefined]
    and when its flag is [undefined]; any other flag, [null] included, is
    handed over as it is, and the handler [areAllVariationsSelected] returns
    it. *)
Theorem areAllVariationsSelected_defaults
  (ctx : option ProductTypes.ProductContextState) (values : ContextValues.t) :
  contextValues ctx = JS.Returned values ->
  (ctx = None ->
   HANDLERS.areAllVariationsSelected values tt
   = JS.Returned (JS.boolean false))
  /\ (forall state,
         ctx = Some state ->
         ProductTypes.skuSelector state = JS.Undef ->
         HANDLERS.areAllVariationsSelected values tt
         = JS.Returned (JS.boolean false))
  /\ (forall state selector,
         ctx = Some state ->
         ProductTypes.skuSelector state = JS.Val selector ->
         HANDLERS.areAllVariationsSelected values tt
         = JS.Returned
             (match ProductTypes.areAllVariationsSelected selector with
              | JS.undefined => JS.boolean false
              | flag => flag
              end)).
Proof.
  unfold contextValues, HANDLERS.areAllVariationsSelected.
  intro Hvalues.
  assert (Hflag :
            destructureSkuSelector
              match ctx with
              | None => JS.Undef
              | Some c => ProductTypes.skuSelector c
              end
            = JS.Returned (ContextValues.areAllVariationsSelected values)).
  { destruct (destructureSkuSelector _); simpl in Hvalues; [| discriminate].
    injection Hvalues as <-. reflexivity. }
  clear Hvalues.
  split; [| split].
  - intros ->. simpl in Hflag. congruence.
  - intros state -> Hsku. rewrite Hsku in Hflag. simpl in Hflag. congruence.
  - intros state selector -> Hsku. rewrite Hsku in Hflag. simpl in Hflag.
    destruct (ProductTypes.areAllVariationsSelected selector); congruence.
Qed.

Lemma areAllVariationsSelected_defaults_witness :
  contextValues bareContext = JS.Returned bareValues
  /\ HANDLERS.areAllVariationsSelected bareValues tt
     = JS.Returned (JS.boolean false).
Proof.
  split; [reflexivity |].
  destruct (areAllVariationsSelected_defaults bareContext bareValues eq_refl)
    as (_ & Hundef & _).
  apply (Hundef {| ProductTypes.product := Some bareProduct;
                   ProductTypes.selectedItem := Some bareItem;
                   ProductTypes.skuSelector := JS.Undef |});
    reflexivity.
Defined.

(** ** Where the registry answers with a boolean *)

(** X20.  For every key, the handler returns a boolean exactly on the
    values described by [answersBoolean], whatever the arguments: always for
    nine of the keys; for [productClusterHighlights] and [sellerId] when the
    collection they query is there; for [hasBestPrice] when the seller list
    is not empty; for [areAllVariationsSelected] when the flag is a
    boolean. *)
Theorem handler_boolean_iff
  (k : Key.t) (values : ContextValues.t) (args : HandlerArguments k) :
  (exists b : bool, handler k values args = JS.Returned (JS.boolean b))
  <-> answersBoolean k values.
Proof.
  destruct k;
    try (split; [intros _; exact I
                | intros _;
                  now apply handlers_returning_boolean]).
  - (* productClusterHighlights *)
    simpl. unfold HANDLERS.productClusterHighlights.
    destruct (ContextValues.clusterHighlights values).
    + split; [discriminate | intros _; eexists; reflexivity].
    + split; [intros [b Hb]; discriminate | congruence].
  - (* areAllVariationsSelected *)
    simpl. unfold HANDLERS.areAllVariationsSelected. split.
    + intros [b [= Hb]]. now exists b.
    + intros [b Hb]. exists b. now rewrite Hb.
  - (* hasBestPrice *)
    simpl. split.
    + intros [b Hb].
      destruct (ContextValues.sellers values) as [[| s rest] |] eqn:Hs.
      * unfold HANDLERS.hasBestPrice in Hb. rewrite Hs in Hb. discriminate.
      * now exists s, rest.
      * unfold HANDLERS.hasBestPrice in Hb. rewrite Hs in Hb. discriminate.
    + intros (s & rest & Hs).
      destruct (hasBestPrice_picks values s rest args Hs) as (t & Ht & _).
      eexists. exact Ht.
  - (* sellerId *)
    simpl. split.
    + intros [b Hb] Hnone. unfold HANDLERS.sellerId in Hb.
      rewrite Hnone in Hb. discriminate.
    + intro Hsome.
      destruct (ContextValues.sellers values) as [sellers |] eqn:Hs;
        [| congruence].
      now apply sellerId_present with (sellers := sellers).
Qed.
